(** * zipato-extension: the debug printer and the settings store

    A shallow embedding of [src/debug.py] and [src/settings.py], and the
    properties of the two classes [Debug] and [Settings].

    Python objects are modelled by the inductive type [Py.value]; a call
    that may raise returns a [Py.result]; the standard output stream is the
    list of the texts handed to [print]; the class attributes of [Settings]
    and the files of the host are finite maps.  PyYAML and the directory
    of the module are taken from the host, [Settings.Host]. *)

From Stdlib Require Import ZArith String Ascii DecimalString DecimalPos Bool Lia.
From stdpp Require Import gmap strings list fin_maps.

Open Scope string_scope.
Open Scope Z_scope.

(* ===================================================================== *)
(** * The Python runtime, as far as the two modules use it               *)
(* ===================================================================== *)

Module Py.

(** The exceptions the two modules can raise. *)
Inductive exn : Type :=
| TypeError
| ValueError
| KeyError
| IndexError
| AttributeError
| FileNotFoundError
| YAMLError
| OSError
| UnboundLocalError
| OverflowError.

(** The outcome of a call: a returned value or a raised exception. *)
Inductive result (A : Type) : Type :=
| Return (a : A)
| Raise (e : exn).
Arguments Return {A} a.
Arguments Raise {A} e.

Definition bind {A B : Type} (r : result A) (k : A -> result B) : result B :=
  match r with
  | Return a => k a
  | Raise e => Raise e
  end.

(** A float: not a number, an infinity, or the finite number
    [m * 2^e] with its sign.  A finite float comes with the text [repr]
    gives for it, which the model takes as given; the text of a Python
    float is made of digits, a sign, a point and an exponent. *)
Inductive float : Type :=
| FNan
| FInf (negative : bool)
| FFinite (negative : bool) (m : N) (e : Z) (text : string).

(** What PyYAML makes of a value of a configuration file, a plain
    scalar, a sequence or a mapping: [None], a [bool], an [int], a
    [float], a [date] or a [datetime] for a time stamp, a [str], a
    [list], or a [dict] with its items in the order of insertion.  A date
    comes with the texts [str] and [repr] give for it, which the model
    takes as given.  Text is a sequence of 8-bit characters. *)
#[warnings="-register-all"]
Inductive value : Type :=
| VNone
| VBool (b : bool)
| VInt (z : Z)
| VFloat (x : float)
| VDate (text code : string)
| VStr (s : string)
| VList (items : list value)
| VDict (items : list (value * value)).

#[global] Instance float_eq_dec : EqDecision float.
Proof. solve_decision. Defined.

Fixpoint value_eq (a b : value) {struct a} : {a = b} + {a <> b}.
Proof.
  decide equality.
  - apply bool_dec.
  - apply Z.eq_dec.
  - apply float_eq_dec.
  - apply string_dec.
  - apply string_dec.
  - apply string_dec.
  - apply (List.list_eq_dec value_eq).
  - apply List.list_eq_dec. intros [k v] [k' v'].
    destruct (value_eq k k') as [-> | Hk]; [| right; congruence].
    destruct (value_eq v v') as [-> | Hv];
      [left; reflexivity | right; congruence].
Defined.

#[global] Instance value_eq_dec : EqDecision value := value_eq.

(** [str(z)] for an [int]. *)
Definition str_of_Z (z : Z) : string := NilZero.string_of_int (Z.to_int z).

(** [repr(x)] for a [float]. *)
Definition float_text (x : float) : string :=
  match x with
  | FNan => "nan"
  | FInf false => "inf"
  | FInf true => "-inf"
  | FFinite _ _ _ text => text
  end.

(** The double quote and the backslash. *)
Definition DQUOTE : ascii := ascii_of_nat 34.
Definition BACKSLASH : ascii := ascii_of_nat 92.

Fixpoint has_char (c : ascii) (s : string) : bool :=
  match s with
  | EmptyString => false
  | String d r => Ascii.eqb d c || has_char c r
  end.

(** A hexadecimal digit, in lower case. *)
Definition hex_digit (n : nat) : ascii :=
  if (n <? 10)%nat then ascii_of_nat (48 + n) else ascii_of_nat (87 + n).

(** A character of a string as [repr] shows it between the quotes
    [quote]: the quote and the backslash after a backslash, tab, line
    feed and carriage return by their letter, the other control
    characters by their code. *)
Definition repr_char (quote c : ascii) : string :=
  if Ascii.eqb c quote || Ascii.eqb c BACKSLASH then
    String BACKSLASH (String c EmptyString)
  else if Ascii.eqb c (ascii_of_nat 9) then String BACKSLASH "t"
  else if Ascii.eqb c (ascii_of_nat 10) then String BACKSLASH "n"
  else if Ascii.eqb c (ascii_of_nat 13) then String BACKSLASH "r"
  else if (nat_of_ascii c <? 32)%nat || (nat_of_ascii c =? 127)%nat then
    String BACKSLASH
      (String "x"
         (String (hex_digit (nat_of_ascii c / 16))
            (String (hex_digit (nat_of_ascii c mod 16)) EmptyString)))
  else String c EmptyString.

Fixpoint repr_chars (quote : ascii) (s : string) : string :=
  match s with
  | EmptyString => EmptyString
  | String c r => repr_char quote c ++ repr_chars quote r
  end.

(** [repr(s)] for a [str]: between double quotes when the string has a
    single quote and no double quote, between single quotes
    otherwise. *)
Definition repr_str (s : string) : string :=
  let quote :=
    if has_char "'" s && negb (has_char DQUOTE s) then DQUOTE else "'"%char in
  String quote (repr_chars quote s ++ String quote EmptyString).

(** [repr(v)]. *)
Fixpoint repr (v : value) : string :=
  match v with
  | VNone => "None"
  | VBool true => "True"
  | VBool false => "False"
  | VInt z => str_of_Z z
  | VFloat x => float_text x
  | VDate _ code => code
  | VStr s => repr_str s
  | VList items => "[" ++ String.concat ", " (map repr items) ++ "]"
  | VDict items =>
      "{"
      ++ String.concat ", "
           (map (fun item => repr item.1 ++ ": " ++ repr item.2) items)
      ++ "}"
  end.

(** [str(v)]. *)
Definition str (v : value) : string :=
  match v with
  | VStr s => s
  | VDate text _ => text
  | _ => repr v
  end.

(** [print(text)]: one more text on the standard output. *)
Definition print (text : string) (stdout : list string) : list string :=
  (stdout ++ [text])%list.

(** ** Characters *)

Definition LF : ascii := ascii_of_nat 10.
Definition CR : ascii := ascii_of_nat 13.

Definition code (c : ascii) : nat := nat_of_ascii c.

Definition between (lo hi : nat) (c : ascii) : bool :=
  (lo <=? code c)%nat && (code c <=? hi)%nat.

(** [c.isspace()], the white space of [str.strip] and of [\s]: tab to
    carriage return, the four separators 28 to 31, and the blank. *)
Definition is_space (c : ascii) : bool :=
  between 9 13 c || between 28 31 c || between 32 32 c.

(** The white space [int()] skips around a literal: C's [isspace]. *)
Definition is_c_space (c : ascii) : bool :=
  between 9 13 c || between 32 32 c.

Definition is_digit (c : ascii) : bool := between 48 57 c.

Definition digit_value (c : ascii) : Z := Z.of_nat (code c - 48).

Definition lower_char (c : ascii) : ascii :=
  if between 65 90 c then ascii_of_nat (code c + 32) else c.

(** ** Strings *)

(** [s.lower()]. *)
Fixpoint lower (s : string) : string :=
  match s with
  | EmptyString => EmptyString
  | String c r => String (lower_char c) (lower r)
  end.

(** [s[-1]], for a string that is not empty. *)
Fixpoint str_last (s : string) : option ascii :=
  match s with
  | EmptyString => None
  | String c EmptyString => Some c
  | String _ r => str_last r
  end.

(** [s[:-1]]. *)
Fixpoint str_init (s : string) : string :=
  match s with
  | EmptyString => EmptyString
  | String _ EmptyString => EmptyString
  | String c r => String c (str_init r)
  end.

(** [s[-1] == c]. *)
Definition last_is (c : ascii) (s : string) : bool :=
  match str_last s with
  | Some d => Ascii.eqb d c
  | None => false
  end.

(** [s[0]]. *)
Definition str_head (s : string) : option ascii :=
  match s with
  | EmptyString => None
  | String c _ => Some c
  end.

(** [s[1:]]. *)
Definition str_tail (s : string) : string :=
  match s with
  | EmptyString => EmptyString
  | String _ r => r
  end.

Fixpoint lstrip_with (sp : ascii -> bool) (s : string) : string :=
  match s with
  | EmptyString => EmptyString
  | String c r => if sp c then lstrip_with sp r else s
  end.

Fixpoint rstrip_with (sp : ascii -> bool) (s : string) : string :=
  match s with
  | EmptyString => EmptyString
  | String c r =>
      match rstrip_with sp r with
      | EmptyString => if sp c then EmptyString else String c EmptyString
      | r' => String c r'
      end
  end.

(** [s.strip()]. *)
Definition strip (s : string) : string :=
  rstrip_with is_space (lstrip_with is_space s).

(** [s.split('\n')]. *)
Fixpoint split_lines (s : string) : list string :=
  match s with
  | EmptyString => [EmptyString]
  | String c r =>
      if Ascii.eqb c LF then EmptyString :: split_lines r
      else match split_lines r with
           | [] => [String c EmptyString]
           | l :: ls => String c l :: ls
           end
  end.

(** ['\n'.join(l)]. *)
Fixpoint join_lines (l : list string) : string :=
  match l with
  | [] => EmptyString
  | [x] => x
  | x :: rest => x ++ String LF (join_lines rest)
  end.

(** What a text-mode read makes of the line ends of a file: [\r\n] and
    a lone [\r] become [\n]. *)
Fixpoint universal_newlines (s : string) : string :=
  match s with
  | EmptyString => EmptyString
  | String c r =>
      if Ascii.eqb c CR then
        match r with
        | String d r' =>
            if Ascii.eqb d LF then String LF (universal_newlines r')
            else String LF (universal_newlines r)
        | EmptyString => String LF EmptyString
        end
      else String c (universal_newlines r)
  end.

(** The lines of a text, each with its line end. *)
Fixpoint keep_ends (s : string) : list string :=
  match s with
  | EmptyString => []
  | String c r =>
      if Ascii.eqb c LF then String LF EmptyString :: keep_ends r
      else match keep_ends r with
           | [] => [String c EmptyString]
           | l :: ls => String c l :: ls
           end
  end.

(** [file.readlines()] of a file opened for reading in text mode. *)
Definition readlines (content : string) : list string :=
  keep_ends (universal_newlines content).

(** ** [int(text)] *)

(** The digits of a literal after its first one; an underscore may stand
    between two digits. *)
Fixpoint int_digits (s : string) (acc : Z) (underscore : bool) : option Z :=
  match s with
  | EmptyString => if underscore then None else Some acc
  | String c r =>
      if is_digit c then int_digits r (10 * acc + digit_value c) false
      else if Ascii.eqb c "_" then
        if underscore then None else int_digits r acc true
      else None
  end.

Definition int_body (s : string) : option Z :=
  match s with
  | EmptyString => None
  | String c r => if is_digit c then int_digits r (digit_value c) false else None
  end.

(** [int(s)] for a [str]: white space around, a sign, decimal digits. *)
Definition int_of_str (s : string) : option Z :=
  let t := rstrip_with is_c_space (lstrip_with is_c_space s) in
  match t with
  | String "+" r => int_body r
  | String "-" r => Z.opp <$> int_body r
  | _ => int_body t
  end.

(** [int(x)] for a [float]: the digits before the point. *)
Definition int_of_float (x : float) : result Z :=
  match x with
  | FNan => Raise ValueError
  | FInf _ => Raise OverflowError
  | FFinite negative m e _ =>
      let q := if 0 <=? e then Z.of_N m * 2 ^ e else Z.of_N m / 2 ^ (- e) in
      Return (if negative then - q else q)
  end.

(** [int(v)]. *)
Definition int (v : value) : result Z :=
  match v with
  | VNone => Raise TypeError
  | VBool b => Return (if b then 1 else 0)
  | VInt z => Return z
  | VFloat x => int_of_float x
  | VStr s =>
      match int_of_str s with
      | Some z => Return z
      | None => Raise ValueError
      end
  | VDate _ _ | VList _ | VDict _ => Raise TypeError
  end.

(** [v == '/']. *)
Definition is_slash (v : value) : bool :=
  match v with
  | VStr s => String.eqb s "/"
  | _ => false
  end.

(** [v == -1], for the key of a [dict]: the integer, or a float of that
    value. *)
Definition is_minus_one (v : value) : bool :=
  match v with
  | VInt z => z =? -1
  | VFloat (FFinite true m e _) =>
      if 0 <=? e then Z.of_N m * 2 ^ e =? 1 else Z.of_N m =? 2 ^ (- e)
  | _ => false
  end.

(** [d[-1]] for a [dict]: the value under a key that is equal to -1. *)
Fixpoint dict_minus_one (items : list (value * value)) : option value :=
  match items with
  | [] => None
  | (k, v) :: rest => if is_minus_one k then Some v else dict_minus_one rest
  end.

(** ** The two regular expressions of [settings.py] *)

(** The characters up to the first [:] of a line, none of them a line
    end. *)
Fixpoint upto_first_colon (s : string) : option string :=
  match s with
  | EmptyString => None
  | String c r =>
      if Ascii.eqb c ":" then Some EmptyString
      else if Ascii.eqb c LF then None
      else String c <$> upto_first_colon r
  end.

(** [re.match('(.+?):.*', line)]: group 1 when the line matches.  The
    lazy [.+?] takes one character, whatever it is but a line end, and
    then the fewest up to a colon. *)
Definition match_param (line : string) : option string :=
  match line with
  | EmptyString => None
  | String c r =>
      if Ascii.eqb c LF then None else String c <$> upto_first_colon r
  end.

(** The characters of [s] before its last [:]. *)
Fixpoint upto_last_colon (s : string) : option string :=
  match s with
  | EmptyString => None
  | String c r =>
      match upto_last_colon r with
      | Some q => Some (String c q)
      | None => if Ascii.eqb c ":" then Some EmptyString else None
      end
  end.

(** The longest prefix of [s] free of white space. *)
Fixpoint non_space_prefix (s : string) : string :=
  match s with
  | EmptyString => EmptyString
  | String c r => if is_space c then EmptyString else String c (non_space_prefix r)
  end.

Fixpoint has_line_end (s : string) : bool :=
  match s with
  | EmptyString => false
  | String c r => Ascii.eqb c LF || has_line_end r
  end.

(** [re.match('\A(\S+):.*\Z', line)]: group 1 when the line matches.
    The greedy [\S+] takes the longest run of characters that are not
    white space and gives back down to the last colon of the run; [.*]
    has to reach the end of the text and cannot cross a line end. *)
Definition match_top_level (line : string) : option string :=
  if has_line_end line then None
  else
    match non_space_prefix line with
    | EmptyString => None
    | String c r => String c <$> upto_last_colon r
    end.

End Py.

#[global] Instance result_ret : MRet Py.result := @Py.Return.
#[global] Instance result_bind : MBind Py.result :=
  fun A B k r => Py.bind r k.

(* ===================================================================== *)
(** * [debug.py]: class [Debug]                                          *)
(* ===================================================================== *)

Module Debug.
Import Py.

(** The escape character, [\033]. *)
Definition ESC : ascii := ascii_of_nat 27.

(** ["\033[" + params + "m"]. *)
Definition sgr (params : string) : string :=
  String ESC ("[" ++ params ++ "m").

(** [_LEVEL_COLOR]: debug level color. *)
Definition _LEVEL_COLOR : gmap Z string :=
  list_to_map
    [ (1, sgr "0;30;41"); (2, sgr "0;30;42"); (3, sgr "0;30;43");
      (4, sgr "0;30;44"); (5, sgr "0;30;45"); (6, sgr "0;30;46");
      (7, sgr "0;30;41"); (8, sgr "0;30;41"); (9, sgr "0;30;42");
      (10, sgr "0;30;43") ].

(** ["{}".format(label)] for a label that is [None] or a [str]. *)
Definition format_label (label : option string) : string :=
  match label with
  | None => "None"
  | Some s => s
  end.

(** [debug_print(self, level, message, module, class_, function)], with
    [self.DEBUG] as [DEBUG].  The function returns the standard output
    after the call and how the call ended. *)
Definition debug_print (DEBUG level : Z) (message : string)
    (module class_ function : option string) (stdout : list string)
  : list string * result unit :=
  if DEBUG >=? level then
    match _LEVEL_COLOR !! level with
    | None => (stdout, Raise KeyError)
    | Some start =>
        let end_ := sgr "0" in
        let stdout := print "" stdout in
        let stdout :=
          print (start ++ "Debug level: " ++ str_of_Z level ++ end_) stdout in
        let stdout :=
          match module with
          | None =>
              print (start ++ "Module: " ++ format_label module ++ end_) stdout
          | Some _ => stdout
          end in
        let stdout :=
          match class_ with
          | None =>
              print (start ++ "Class: " ++ format_label class_ ++ end_) stdout
          | Some _ => stdout
          end in
        let stdout :=
          match function with
          | None =>
              print (start ++ "Function: " ++ format_label function ++ end_)
                stdout
          | Some _ => stdout
          end in
        let stdout := print (start ++ message ++ end_) stdout in
        let stdout := print "" stdout in
        (stdout, Return tt)
    end
  else (stdout, Return tt).

End Debug.

(* ===================================================================== *)
(** * [settings.py]: class [Settings]                                    *)
(* ===================================================================== *)

Module Settings.
Import Py.

(** What [yaml.load] returns for a document: a mapping from top-level
    keys, which are strings, to values, in the order of the document, or
    something that is no mapping. *)
Inductive yaml_doc : Type :=
| YamlMapping (constants : list (string * value))
| YamlOther.

(** What [settings.py] takes from its host: the directory of the module
    file, [os.path.dirname(os.path.abspath(__file__))], and PyYAML.
    [yaml_load] is [None] where [yaml.load] raises; [yaml_dump settings]
    is [yaml.dump(settings, default_flow_style=False, indent=4)]. *)
Class Host : Type := {
  module_dir : string;
  yaml_load : string -> option yaml_doc;
  yaml_dump : list (string * value) -> string
}.

(** [__CONFIG_FILE]: config file name. *)
Definition __CONFIG_FILE : string := "zipatoserver.conf".

(** [__PATH_WITH_SLASH_PARAMETERS]: parameters in this list will always
    end with a slash. *)
Definition __PATH_WITH_SLASH_PARAMETERS : list string :=
  [ "WEB_API_PATH"; "WEB_GUI_PATH"; "WAKEONLAN_PATH"; "PING_PATH";
    "SSH_PATH" ].

(** [__PATH_WITHOUT_SLASH_PARAMETERS]: parameters in this list will never
    end with a slash. *)
Definition __PATH_WITHOUT_SLASH_PARAMETERS : list string :=
  [ "MESSAGE_LOG"; "ERROR_LOG"; "SSH_KEY_FILE" ].

(** [param in names]. *)
Definition py_in (param : string) (names : list string) : bool :=
  bool_decide (param ∈ names).

(** [_format_path(path, slash)].  [len(path)] raises for [None], a
    [bool], an [int], a [float] and a date.  A [list] has its last item for
    [path[-1]], cannot be added to a string, and loses that item by
    [path[:-1]].  A [dict] has for [path[-1]] the value under the key -1,
    or none; it cannot be added to a string, and [path[:-1]] raises, a
    slice being no key. *)
Definition _format_path (path : value) (slash : bool) : result value :=
  match path with
  | VStr s =>
      if (String.length s =? 0)%nat then Return path
      else if slash && negb (last_is "/" s) then Return (VStr (s ++ "/"))
      else if negb slash && last_is "/" s then Return (VStr (str_init s))
      else Return path
  | VList items =>
      match last items with
      | None => Return path
      | Some item =>
          if slash && negb (is_slash item) then Raise TypeError
          else if negb slash && is_slash item then
            Return (VList (removelast items))
          else Return path
      end
  | VDict items =>
      if (length items =? 0)%nat then Return path
      else
        match dict_minus_one items with
        | None => Raise KeyError
        | Some item =>
            if slash && negb (is_slash item) then Raise TypeError
            else if negb slash && is_slash item then Raise TypeError
            else Return path
        end
  | VNone | VBool _ | VInt _ | VFloat _ | VDate _ _ => Raise TypeError
  end.

(** [_format_value(param, value)]. *)
Definition _format_value (param : string) (value : value) : result Py.value :=
  if py_in param __PATH_WITH_SLASH_PARAMETERS then _format_path value true
  else if py_in param __PATH_WITHOUT_SLASH_PARAMETERS then
    _format_path value false
  else if String.eqb (lower (str value)) "yes"
          || String.eqb (lower (str value)) "true" then Return (VBool true)
  else if String.eqb (lower (str value)) "no"
          || String.eqb (lower (str value)) "false" then Return (VBool false)
  else
    match int value with
    | Return z => Return (VInt z)
    | Raise TypeError | Raise ValueError => Return value
    | Raise e => Raise e
    end.

(** [_get_config_file(settings_path, program_path)]. *)
Definition _get_config_file (settings_path : option string)
    (program_path : string) : result string :=
  match settings_path with
  | Some p =>
      config_file ← _format_path (VStr p) true;
      match config_file with
      | VStr f => Return (f ++ __CONFIG_FILE)
      | _ => Raise TypeError
      end
  | None => Return (program_path ++ __CONFIG_FILE)
  end.

(** ** Loading *)

Section Load.
Context `{Host}.

(** The loop of [load_settings_from_yaml]:
    [setattr(Settings, constant, _format_value(constant, value))] for
    each item.  [attrs] holds the attributes of the class that are
    settings, apart from its members: a constant with the name of a
    member (a method, a private list, a special attribute) takes the
    place of that member in the class, which this map does not show. *)
Fixpoint set_constants (constants : list (string * value))
    (attrs : gmap string value) : gmap string value * result unit :=
  match constants with
  | [] => (attrs, Return tt)
  | (constant, value) :: rest =>
      match _format_value constant value with
      | Return v => set_constants rest (<[constant := v]> attrs)
      | Raise e => (attrs, Raise e)
      end
  end.

(** [load_settings_from_yaml(settings_path)] on the class attributes
    [attrs] and the files [files] of the host. *)
Definition load_settings_from_yaml (settings_path : option string)
    (attrs : gmap string value) (files : gmap string string)
  : gmap string value * result unit :=
  let program_path := module_dir ++ "/" in
  let attrs := <["PROGRAM_PATH" := VStr program_path]> attrs in
  match _get_config_file settings_path program_path with
  | Raise e => (attrs, Raise e)
  | Return config_file =>
      match files !! config_file with
      | None => (attrs, Raise FileNotFoundError)
      | Some text =>
          match yaml_load text with
          | None => (attrs, Raise YAMLError)
          | Some YamlOther => (attrs, Raise AttributeError)
          | Some (YamlMapping constants) => set_constants constants attrs
          end
      end
  end.

End Load.

(** ** Writing *)

(** [len(line) > 0 and line[0] == '#']. *)
Definition is_comment (line : string) : bool :=
  (0 <? String.length line)%nat
  && match str_head line with
     | Some c => Ascii.eqb c "#"
     | None => false
     end.

(** The comment scan of [write_settings_to_file], from line [i] on:
    [lines] are [lines[i:]], [comment] is the pending block and
    [param_comments] the associations made so far.  [lines[i+1]] raises
    past the last line, [line[0]] on an empty line, and [.group] on a
    line that does not match. *)
Fixpoint read_comments (lines : list string) (comment : list string)
    (param_comments : gmap string (list string))
  : result (gmap string (list string)) :=
  match lines with
  | [] => Return param_comments
  | line :: rest =>
      if is_comment line then
        let comment := (comment ++ [strip line])%list in
        match rest with
        | [] => Raise IndexError
        | next :: _ =>
            match str_head next with
            | None => Raise IndexError
            | Some c =>
                if negb (Ascii.eqb c "#") then
                  match match_param next with
                  | None => Raise AttributeError
                  | Some param =>
                      read_comments rest []
                        (<[param := comment]> param_comments)
                  end
                else read_comments rest comment param_comments
            end
        end
      else read_comments rest comment param_comments
  end.

(** [settings_json[param] = _format_value(param, value)] for each item. *)
Fixpoint format_settings (settings_json : list (string * value))
  : result (list (string * value)) :=
  match settings_json with
  | [] => Return []
  | (param, value) :: rest =>
      v ← _format_value param value;
      rest' ← format_settings rest;
      Return ((param, v) :: rest')
  end.

(** [l.insert(i, x)]. *)
Definition py_insert {A : Type} (i : nat) (x : A) (l : list A) : list A :=
  (take i l ++ x :: drop i l)%list.

(** [for comment in comments: settings_list.insert(i, comment); i += 1]. *)
Fixpoint insert_block (comments : list string) (settings_list : list string)
    (i : nat) : list string * nat :=
  match comments with
  | [] => (settings_list, i)
  | comment :: rest => insert_block rest (py_insert i comment settings_list) (S i)
  end.

(** The [while i < len(settings_list)] loop of [write_settings_to_file],
    run for at most [fuel] rounds; [None] when the rounds do not suffice.
    The inner [for] over [param_comments.items()] finds the entry of
    [param], inserts its block, deletes the entry and stops. *)
Fixpoint comment_loop (fuel : nat) (settings_list : list string) (i : nat)
    (param_comments : gmap string (list string)) : option (list string) :=
  match settings_list !! i with
  | None => Some settings_list
  | Some line =>
      match fuel with
      | O => None
      | S fuel =>
          match match_top_level line with
          | Some param =>
              let settings_list := py_insert i EmptyString settings_list in
              let i := S i in
              match param_comments !! param with
              | Some comments =>
                  let '(settings_list, i) :=
                    insert_block comments settings_list i in
                  comment_loop fuel settings_list (S i)
                    (delete param param_comments)
              | None => comment_loop fuel settings_list (S i) param_comments
              end
          | None => comment_loop fuel settings_list (S i) param_comments
          end
      end
  end.

(** What the loop makes of the lines from [i] on: every line is visited
    once, since [i] is moved past each inserted line. *)
Fixpoint add_comments (settings_list : list string)
    (param_comments : gmap string (list string)) : list string :=
  match settings_list with
  | [] => []
  | line :: rest =>
      match match_top_level line with
      | Some param =>
          match param_comments !! param with
          | Some comments =>
              (EmptyString :: comments
                 ++ line :: add_comments rest (delete param param_comments))%list
          | None => EmptyString :: line :: add_comments rest param_comments
          end
      | None => line :: add_comments rest param_comments
      end
  end.

(** The operations on the files of the host. *)
Inductive file_op : Type :=
| Truncate (path : string)
| Append (path : string) (c : ascii)
| Rename (src dst : string).

Definition apply_op (op : file_op) (files : gmap string string)
  : gmap string string :=
  match op with
  | Truncate path => <[path := EmptyString]> files
  | Append path c =>
      match files !! path with
      | Some text => <[path := text ++ String c EmptyString]> files
      | None => files
      end
  | Rename src dst =>
      match files !! src with
      | Some text => <[dst := text]> (delete src files)
      | None => files
      end
  end.

(** The operations in turn.  [fault] is the number of operations the
    host carries out before it fails one, [None] when it fails none; a
    failed operation changes nothing and raises. *)
Fixpoint run_ops (ops : list file_op) (fault : option nat)
    (files : gmap string string) : gmap string string * result unit :=
  match ops with
  | [] => (files, Return tt)
  | op :: rest =>
      match fault with
      | Some O => (files, Raise OSError)
      | Some (S n) => run_ops rest (Some n) (apply_op op files)
      | None => run_ops rest None (apply_op op files)
      end
  end.

(** [file_obj.writelines(text)] on a [str]: one write per character. *)
Fixpoint writelines (path : string) (text : string) : list file_op :=
  match text with
  | EmptyString => []
  | String c r => Append path c :: writelines path r
  end.

(** ** The comments for the settings page *)

(** [re.match('\A#.*', line)]. *)
Definition match_comment (line : string) : bool :=
  match str_head line with
  | Some c => Ascii.eqb c "#"
  | None => false
  end.

(** [re.match("\A{}:.*".format(key), line)], for a key of letters, digits
    and underscores, which as a regular expression matches itself: the
    line starts with the key and a colon.  A key with other characters is
    a pattern of its own, which this comparison does not follow. *)
Definition match_key (key line : string) : bool :=
  String.prefix (key ++ ":") line.

(** [for key in constants.keys()]: a key whose pattern matches the line
    becomes [constant], with an empty comment. *)
Fixpoint set_constant (keys : list string) (line : string)
    (constant : option string) (comments : gmap string string)
  : option string * gmap string string :=
  match keys with
  | [] => (constant, comments)
  | key :: rest =>
      if match_key key line then
        set_constant rest line (Some key) (<[key := EmptyString]> comments)
      else set_constant rest line constant comments
  end.

(** The comment scan of [render_settings_html] over the lines from the
    last to the first, [lines] being the lines still to visit, last line
    first.  [constant] is [None] while the name is not bound. *)
Fixpoint scan_comments (lines : list string) (keys : list string)
    (constant : option string) (comments : gmap string string)
  : result (gmap string string) :=
  match lines with
  | [] => Return comments
  | line :: rest =>
      if match_comment line then
        match constant with
        | None => Raise UnboundLocalError
        | Some c =>
            match comments !! c with
            | None => Raise KeyError
            | Some old =>
                let comments :=
                  <[c := strip (str_tail line) ++ " " ++ old]> comments in
                let '(constant, comments) :=
                  set_constant keys line constant comments in
                scan_comments rest keys constant comments
            end
        end
      else
        let '(constant, comments) :=
          set_constant keys line constant comments in
        scan_comments rest keys constant comments
  end.

(** The comments [render_settings_html] hands to the template.  After
    the loop over [constants.items()], [constant] is the last key. *)
Definition render_comments (constants : list (string * value))
    (lines : list string) : result (gmap string string) :=
  scan_comments (reverse lines) (constants.*1) (last (constants.*1)) ∅.

Section Write.
Context `{Host}.

(** The text [write_settings_to_file] builds from the lines of the old
    file and the settings. *)
Definition settings_text (lines : list string)
    (settings_json : list (string * value)) : result string :=
  param_comments ← read_comments lines [] ∅;
  settings_json ← format_settings settings_json;
  let settings_yaml := yaml_dump settings_json in
  let settings_list := split_lines settings_yaml in
  let settings_list := add_comments settings_list param_comments in
  Return (str_tail (join_lines settings_list)).

(** The file operations of the last three statements: the text goes to
    [config_file + '~'], which is then renamed to [config_file]. *)
Definition replace_ops (config_file settings_yaml : string) : list file_op :=
  (Truncate (config_file ++ "~")
     :: writelines (config_file ++ "~") settings_yaml
     ++ [Rename (config_file ++ "~") config_file])%list.

(** [write_settings_to_file(settings_json, settings_path)] on the files
    of the host.  The source has a stray [ya] in the statement that
    sets [program_path]; the statement is read as the other two
    methods have it. *)
Definition write_settings_to_file (settings_json : list (string * value))
    (settings_path : option string) (fault : option nat)
    (files : gmap string string) : gmap string string * result unit :=
  let program_path := module_dir ++ "/" in
  match _get_config_file settings_path program_path with
  | Raise e => (files, Raise e)
  | Return config_file =>
      match files !! config_file with
      | None => (files, Raise FileNotFoundError)
      | Some content =>
          match settings_text (readlines content) settings_json with
          | Raise e => (files, Raise e)
          | Return settings_yaml =>
              run_ops (replace_ops config_file settings_yaml) fault files
          end
      end
  end.

End Write.

(** ** The settings page *)

(** [Settings.WEB_API_PATH + suffix]: the attribute has to be there, and
    to be a string. *)
Definition web_api_path (attrs : gmap string value) (suffix : string)
  : result string :=
  match attrs !! "WEB_API_PATH" with
  | None => Raise AttributeError
  | Some (VStr base) => Return (base ++ suffix)
  | Some _ => Raise TypeError
  end.

(** The call of Flask's [render_template] that ends
    [render_settings_html]: the name of the template and the keyword
    arguments. *)
Record template_call : Type := {
  template : string;
  constants : list (string * value);
  comments : gmap string string;
  save_settings_path : string;
  remove_param_path : string;
  add_param_path : string
}.

Section Render.
Context `{Host}.

(** [render_settings_html(settings_path)] on the class attributes and the
    files of the host, up to the call of [render_template], which is the
    result. *)
Definition render_settings_html (settings_path : option string)
    (attrs : gmap string value) (files : gmap string string)
  : result template_call :=
  let program_path := module_dir ++ "/" in
  config_file ← _get_config_file settings_path program_path;
  match files !! config_file with
  | None => Raise FileNotFoundError
  | Some content =>
      match yaml_load content with
      | None => Raise YAMLError
      | Some YamlOther => Raise AttributeError
      | Some (YamlMapping constants) =>
          constants ← format_settings constants;
          comments ← render_comments constants (readlines content);
          save ← web_api_path attrs "save_settings";
          remove ← web_api_path attrs "remove_param";
          add ← web_api_path attrs "add_param";
          Return {| template := "settings.html";
                    constants := constants;
                    comments := comments;
                    save_settings_path := save;
                    remove_param_path := remove;
                    add_param_path := add |}
      end
  end.

End Render.

End Settings.

(* ===================================================================== *)
(** * Notions the properties are stated with                             *)
(* ===================================================================== *)

Import Py.

(** A label with its text forgotten: [None] stays [None]. *)
Definition blank_label (label : option string) : option string :=
  match label with
  | None => None
  | Some _ => Some EmptyString
  end.

(** A text between the color of a level and the reset sequence. *)
Definition framed (start text : string) : string :=
  start ++ text ++ Debug.sgr "0".











(** The line end, as a text. *)
Definition nl : string := String LF EmptyString.

(** PyYAML on the documents of the examples: what [yaml.load] returns for
    each text, and [None] for the text it rejects, a flow sequence left
    open.  A text that is not listed is taken as rejected; no example reads
    one. *)
Definition sample_loads : list (string * option Settings.yaml_doc) :=
  [ ("MESSAGE_LOG: logs//" ++ nl,
      Some (Settings.YamlMapping [("MESSAGE_LOG", VStr "logs//")]));
    ("MESSAGE_LOG: logs" ++ nl,
      Some (Settings.YamlMapping [("MESSAGE_LOG", VStr "logs")]));
    ("a: 1" ++ nl ++ "# note" ++ nl ++ "b: yes" ++ nl,
      Some (Settings.YamlMapping [("a", VInt 1); ("b", VBool true)]));
    ("a: 1" ++ nl ++ nl ++ "# note" ++ nl ++ "b: true" ++ nl,
      Some (Settings.YamlMapping [("a", VInt 1); ("b", VBool true)]));
    ("a: [1" ++ nl, None) ].

(** PyYAML on the mappings of the examples: what
    [yaml.dump(settings, default_flow_style=False, indent=4)] returns. *)
Definition sample_dumps : list (list (string * value) * string) :=
  [ ([("MESSAGE_LOG", VStr "logs")], "MESSAGE_LOG: logs" ++ nl);
    ([("a", VInt 1); ("b", VBool true)], "a: 1" ++ nl ++ "b: true" ++ nl) ].

(** The entry of a key in a table. *)
Fixpoint table_lookup {K V : Type} `{EqDecision K} (k : K) (table : list (K * V))
  : option V :=
  match table with
  | [] => None
  | (k', v) :: rest => if decide (k = k') then Some v else table_lookup k rest
  end.

(** A host for the examples: the module lies in [/opt/zipatoserver]. *)
Definition sample_host : Settings.Host := {|
  Settings.module_dir := "/opt/zipatoserver";
  Settings.yaml_load text := mjoin (table_lookup text sample_loads);
  Settings.yaml_dump settings :=
    default ("{}" ++ nl) (table_lookup settings sample_dumps)
|}.

(** The attributes of [Settings] before the first load. *)
Definition initial_attrs : gmap string value := {[ "PROGRAM_PATH" := VNone ]}.

(** The files after the operations [ops], none of them failing. *)
Definition files_after (ops : list Settings.file_op) (files : gmap string string)
  : gmap string string :=
  foldl (fun fs op => Settings.apply_op op fs) files ops.

(** An operation that writes to [path] and to no other file. *)
Definition writes_only (path : string) (op : Settings.file_op) : Prop :=
  match op with
  | Settings.Truncate p | Settings.Append p _ => p = path
  | Settings.Rename _ _ => False
  end.

(** The config file of the scenario of the specification. *)
Definition scenario_old : string :=
  "a: 1" ++ nl ++ "# note" ++ nl ++ "b: yes" ++ nl.

(** The text the writer makes of it. *)
Definition scenario_new : string :=
  "a: 1" ++ nl ++ nl ++ "# note" ++ nl ++ "b: true" ++ nl.

(** The files of the scenario: the config file lies in [/etc]. *)
Definition scenario_files : gmap string string :=
  {[ "/etc/zipatoserver.conf" := scenario_old ]}.

(** The settings of the scenario, [a = 1] and [b = True]. *)
Definition scenario_settings : list (string * value) :=
  [("a", VInt 1); ("b", VBool true)].

(** The layout of a config file: lines that are no comments, and comment
    blocks, each followed by the line [key:rest] of the key it is about. *)
Inductive entry : Type :=
| Plain (line : string)
| Commented (block : list string) (key rest : string).

(** The line of a key. *)
Definition key_line (key rest : string) : string := key ++ ":" ++ rest.

(** The lines of an entry, and of a layout. *)
Definition entry_lines (e : entry) : list string :=
  match e with
  | Plain line => [line]
  | Commented block key rest => (block ++ [key_line key rest])%list
  end.

Definition file_lines (entries : list entry) : list string :=
  concat (entry_lines <$> entries).

(** The keys that have a comment block, in the order of the file. *)
Fixpoint commented_keys (entries : list entry) : list string :=
  match entries with
  | [] => []
  | Plain _ :: rest => commented_keys rest
  | Commented _ key _ :: rest => key :: commented_keys rest
  end.

(** A text with no colon and no line end in it. *)
Fixpoint no_colon_no_line_end (s : string) : bool :=
  match s with
  | EmptyString => true
  | String c r =>
      negb (Ascii.eqb c ":") && negb (Ascii.eqb c LF) && no_colon_no_line_end r
  end.

(** The text of a key: not empty, free of colons and line ends, and not
    starting with the comment marker. *)
Definition key_text (key : string) : Prop :=
  key ≠ EmptyString
  ∧ no_colon_no_line_end key = true
  ∧ str_head key ≠ Some "#"%char.

(** A plain line is no comment; a block is not empty, is made of comment
    lines, and is about a key. *)
Definition entry_ok (e : entry) : Prop :=
  match e with
  | Plain line => Settings.is_comment line = false
  | Commented block key _ =>
      block ≠ []
      ∧ Forall (fun line => Settings.is_comment line = true) block
      ∧ key_text key
  end.

(** The associations the blocks of a layout stand for. *)
Fixpoint block_map (entries : list entry) (acc : gmap string (list string))
  : gmap string (list string) :=
  match entries with
  | [] => acc
  | Plain _ :: rest => block_map rest acc
  | Commented block key _ :: rest =>
      block_map rest (<[key := strip <$> block]> acc)
  end.

(** A config file with two commented keys, a blank line and a key with no
    comment. *)
Definition sample_layout : list entry :=
  [ Commented ["# server" ++ nl; "#  port " ++ nl] "a" (" 1" ++ nl);
    Plain nl;
    Commented ["# note" ++ nl] "b" (" yes" ++ nl);
    Plain ("c: 3" ++ nl) ].

(** A config file whose never-slash setting ends with two separators. *)
Definition doubled_separator_files : gmap string string :=
  {[ "/etc/zipatoserver.conf" := "MESSAGE_LOG: logs//" ++ nl ]}.

(** The comment the settings page shows for a block: the text of each
    line after the marker, stripped, and a blank after each. *)
Definition comment_text (block : list string) : string :=
  foldr (fun line text => strip (str_tail line) ++ " " ++ text) EmptyString
    block.

(** The layout of a config file as the settings page reads it, for the
    keys [keys] of the document: a plain line is no comment and is the
    line of no key; a block, which may be empty, is made of comment lines
    and stands above the line of a key of the document. *)
Definition page_entry_ok (keys : list string) (e : entry) : Prop :=
  match e with
  | Plain line =>
      Settings.match_comment line = false
      ∧ ∀ key : string, key ∈ keys → Settings.match_key key line = false
  | Commented block key _ =>
      Forall (fun line => Settings.match_comment line = true) block
      ∧ key_text key
      ∧ key ∈ keys
  end.

(** The comments of the settings page for a layout. *)
Fixpoint page_map (entries : list entry) (acc : gmap string string)
  : gmap string string :=
  match entries with
  | [] => acc
  | Plain _ :: rest => page_map rest acc
  | Commented block key _ :: rest =>
      <[key := comment_text block]> (page_map rest acc)
  end.

(** The key of the first block of a layout, [constant] when there is no
    block. *)
Fixpoint top_key (entries : list entry) (constant : option string)
  : option string :=
  match entries with
  | [] => constant
  | Plain _ :: rest => top_key rest constant
  | Commented _ key _ :: _ => Some key
  end.

(** A config file as the settings page reads it: a key with two comment
    lines, a blank line, and a key with no comment. *)
Definition page_layout : list entry :=
  [ Commented ["# server" ++ nl; "#  port " ++ nl] "a" (" 1" ++ nl);
    Plain nl;
    Commented [] "b" (" yes" ++ nl) ].

(** The name of a setting: not the name of a member of the class
    [Settings].  The private members, their mangled names and the special
    attributes of a class start with an underscore; the public ones are
    the four methods. *)
Definition setting_name (name : string) : bool :=
  negb match str_head name with
       | Some c => Ascii.eqb c "_"
       | None => false
       end
  && negb (bool_decide
             (name ∈ [ "load_settings_from_yaml"; "render_settings_html";
                       "remove_value_from_file"; "write_settings_to_file" ])).

(** A letter, a digit or the underscore. *)
Definition word_char (c : ascii) : bool :=
  is_digit c || between 65 90 c || between 97 122 c || Ascii.eqb c "_".

Fixpoint all_word_chars (s : string) : bool :=
  match s with
  | EmptyString => true
  | String c r => word_char c && all_word_chars r
  end.

(** A key made of letters, digits and underscores: as a regular
    expression it matches itself and nothing else. *)
Definition word_key (key : string) : Prop :=
  key ≠ EmptyString ∧ all_word_chars key = true.

(** PyYAML on one more document, with a number for [SSH_PATH]. *)
Definition typed_loads : list (string * option Settings.yaml_doc) :=
  [ ("a: 1" ++ nl ++ "SSH_PATH: 22" ++ nl ++ "b: yes" ++ nl,
      Some (Settings.YamlMapping
              [("a", VInt 1); ("SSH_PATH", VInt 22); ("b", VBool true)])) ].

(** A host that reads that document. *)
Definition typed_host : Settings.Host := {|
  Settings.module_dir := "/opt/zipatoserver";
  Settings.yaml_load text := mjoin (table_lookup text typed_loads);
  Settings.yaml_dump settings := "{}" ++ nl
|}.

(** The files of that host. *)
Definition typed_files : gmap string string :=
  {[ "/etc/zipatoserver.conf"
     := "a: 1" ++ nl ++ "SSH_PATH: 22" ++ nl ++ "b: yes" ++ nl ]}.

(* ===================================================================== *)
(** * The debug printer                                                  *)
(* ===================================================================== *)

(** A message of level 3 at threshold 3, with a module and a function
    named and no class: of the three labels only "Class: None" is
    printed. *)
Example debug_level_3 :
  Debug.debug_print 3 3 "ready" (Some "m") None (Some "f") [] =
  ([ ""; Debug.sgr "0;30;43" ++ "Debug level: 3" ++ Debug.sgr "0";
     Debug.sgr "0;30;43" ++ "Class: None" ++ Debug.sgr "0";
     Debug.sgr "0;30;43" ++ "ready" ++ Debug.sgr "0"; "" ], Return tt).
Proof. reflexivity. Qed.

Lemma level_color_unmapped (level : Z) :
  level < 1 ∨ 10 < level → Debug._LEVEL_COLOR !! level = None.
Proof.
  intros Hout. apply not_elem_of_list_to_map_1. cbn.
  rewrite !not_elem_of_cons. repeat (split; [lia |]). apply not_elem_of_nil.
Qed.

Lemma level_color_mapped (level : Z) :
  1 ≤ level ≤ 10 → is_Some (Debug._LEVEL_COLOR !! level).
Proof.
  intros Hin.
  assert (level = 1 ∨ level = 2 ∨ level = 3 ∨ level = 4 ∨ level = 5
          ∨ level = 6 ∨ level = 7 ∨ level = 8 ∨ level = 9 ∨ level = 10)
    as Hcases by lia.
  repeat destruct Hcases as [-> | Hcases]; try subst level;
    vm_compute; eauto.
Qed.

Lemma string_app_assoc (a b c : string) : (a ++ b) ++ c = a ++ b ++ c.
Proof.
  induction a as [| x a IH]; [done |].
  change (String x ((a ++ b) ++ c) = String x (a ++ b ++ c)). by rewrite IH.
Qed.

Lemma string_app_inv_head (p a b : string) : p ++ a = p ++ b → a = b.
Proof.
  induction p as [| c p IH]; cbn; [done |]. intros [= Heq]. auto.
Qed.

(** C8. A call of [debug_print] with a level that is not one of the ten
    keys of [_LEVEL_COLOR] (level 0, a negative level, a level above 10)
    prints nothing, whatever the threshold [DEBUG] is: the standard output
    is as it was before the call. *)
Theorem debug_print_unmapped_level_silent
    (DEBUG level : Z) (message : string) (module class_ function : option string)
    (stdout : list string) :
  level < 1 ∨ 10 < level →
  (Debug.debug_print DEBUG level message module class_ function stdout).1
  = stdout.
Proof.
  intros Hout. unfold Debug.debug_print.
  rewrite (level_color_unmapped level Hout).
  by destruct (DEBUG >=? level).
Qed.

Lemma debug_print_unmapped_level_silent_witness :
  (0 < 1 ∨ 10 < 0)
  ∧ (Debug.debug_print 0 0 "started" None None None []).1 = [].
Proof.
  split; [lia |].
  apply (debug_print_unmapped_level_silent 0 0 "started" None None None []).
  lia.
Defined.

(** X22. Below the threshold such a call does not return: the lookup of
    the color raises [KeyError] before anything is printed. *)
Lemma debug_print_unmapped_level_raises
    (DEBUG level : Z) (message : string) (module class_ function : option string)
    (stdout : list string) :
  level < 1 ∨ 10 < level → level ≤ DEBUG →
  Debug.debug_print DEBUG level message module class_ function stdout
  = (stdout, Raise KeyError).
Proof.
  intros Hout Hle. unfold Debug.debug_print.
  rewrite (level_color_unmapped level Hout).
  destruct (DEBUG >=? level) eqn:Hge; [done | lia].
Qed.

(** C9, as the specification has it, fails above the ten levels: with the
    threshold at 11 a message of level 11 is within the threshold and
    nothing is printed. *)
Lemma debug_print_level_11_not_printed :
  1 ≤ 11 ≤ 11
  ∧ Debug.debug_print 11 11 "started" None None None [] = ([], Raise KeyError).
Proof. split; [lia | reflexivity]. Qed.

(** C9, amended. A call of [debug_print] prints nothing when the level of
    the message is above the threshold [DEBUG]; it prints, and returns, for
    every level from 1 up to the threshold that is one of the ten levels
    of [_LEVEL_COLOR]. *)
Theorem debug_print_threshold
    (DEBUG level : Z) (message : string) (module class_ function : option string)
    (stdout : list string) :
  (DEBUG < level →
   Debug.debug_print DEBUG level message module class_ function stdout
   = (stdout, Return tt))
  ∧ (1 ≤ level ≤ DEBUG → level ≤ 10 →
     ∃ printed : list string,
       printed ≠ []
       ∧ Debug.debug_print DEBUG level message module class_ function stdout
         = ((stdout ++ printed)%list, Return tt)).
Proof.
  split.
  - intros Hlt. unfold Debug.debug_print.
    destruct (DEBUG >=? level) eqn:Hge; [lia | done].
  - intros [Hlo Hhi] Hten. unfold Debug.debug_print.
    destruct (DEBUG >=? level) eqn:Hge; [| lia].
    destruct (level_color_mapped level) as [start ->]; [lia |].
    unfold print.
    destruct module, class_, function; cbn [Debug.format_label];
      rewrite <- ?app_assoc; cbn [app];
      eexists; (split; [| reflexivity]); discriminate.
Qed.

Lemma debug_print_threshold_witness :
  Debug.debug_print 3 4 "started" None None None [] = ([], Return tt)
  ∧ ∃ printed : list string,
      printed ≠ []
      ∧ Debug.debug_print 3 2 "started" None None None []
        = (([] ++ printed)%list, Return tt).
Proof.
  split.
  - apply (proj1 (debug_print_threshold 3 4 "started" None None None [])).
    lia.
  - apply (proj2 (debug_print_threshold 3 2 "started" None None None []));
      lia.
Defined.

Ltac distinct_labels :=
  repeat match goal with
    | H : _ ∈ _ :: _ |- _ => apply elem_of_cons in H; destruct H as [H | H]
    | H : _ ∈ [] |- _ => apply elem_of_nil in H; destruct H
    | H : ?p ++ _ = ?p ++ _ |- _ =>
        apply string_app_inv_head in H; discriminate H
    end.

(** C10. When [debug_print] prints, the lines between the "Debug level:"
    line and the message line are label lines; the "Module:", "Class:" and
    "Function:" line is among them exactly when the matching argument is
    [None], and it then reads [None]; the text of a label that is not
    [None] has no part in the output, which is the same for every such
    text. *)
Theorem debug_print_labels_only_for_none
    (DEBUG level : Z) (message : string) (module class_ function : option string)
    (stdout stdout' : list string) (r : result unit) :
  Debug.debug_print DEBUG level message module class_ function stdout
  = (stdout', r) →
  stdout' ≠ stdout →
  ∃ (start : string) (labels : list string),
    Debug._LEVEL_COLOR !! level = Some start
    ∧ stdout'
      = (stdout
         ++ EmptyString
         :: framed start ("Debug level: " ++ str_of_Z level)
         :: labels ++ [framed start message; EmptyString])%list
    ∧ (framed start "Module: None" ∈ labels ↔ module = None)
    ∧ (framed start "Class: None" ∈ labels ↔ class_ = None)
    ∧ (framed start "Function: None" ∈ labels ↔ function = None)
    ∧ (∀ line : string,
         line ∈ labels →
         line ∈ [ framed start "Module: None"; framed start "Class: None";
                  framed start "Function: None" ])
    ∧ Debug.debug_print DEBUG level message (blank_label module)
        (blank_label class_) (blank_label function) stdout
      = (stdout', r).
Proof.
  unfold Debug.debug_print. intros Hrun Hprinted.
  destruct (DEBUG >=? level); [| by injection Hrun as <- _].
  destruct (Debug._LEVEL_COLOR !! level) as [start |];
    [| by injection Hrun as <- _].
  exists start.
  exists ((if module is None then [framed start "Module: None"] else [])
          ++ (if class_ is None then [framed start "Class: None"] else [])
          ++ (if function is None then [framed start "Function: None"] else []))%list.
  unfold print, framed in *.
  destruct module as [m |], class_ as [c |], function as [f |];
    cbn [Debug.format_label blank_label] in *;
    rewrite <- ?app_assoc in Hrun; cbn [app] in Hrun;
    injection Hrun as <- <-;
    rewrite <- ?app_assoc; cbn [app];
    (split; [reflexivity |]);
    (split; [by rewrite ?string_app_assoc |]);
    repeat split; intros; try done; distinct_labels;
    rewrite ?elem_of_cons; auto.
Qed.

Lemma debug_print_labels_only_for_none_witness :
  ∃ (start : string) (labels : list string),
    Debug._LEVEL_COLOR !! 2 = Some start
    ∧ fst (Debug.debug_print 5 2 "ready" (Some "settings") None (Some "load") [])
      = ([]
         ++ EmptyString
         :: framed start ("Debug level: " ++ str_of_Z 2)
         :: labels ++ [framed start "ready"; EmptyString])%list
    ∧ (framed start "Module: None" ∈ labels ↔ Some "settings" = None)
    ∧ (framed start "Class: None" ∈ labels ↔ @None string = None)
    ∧ (framed start "Function: None" ∈ labels ↔ Some "load" = None)
    ∧ (∀ line : string,
         line ∈ labels →
         line ∈ [ framed start "Module: None"; framed start "Class: None";
                  framed start "Function: None" ])
    ∧ Debug.debug_print 5 2 "ready" (blank_label (Some "settings"))
        (blank_label None) (blank_label (Some "load")) []
      = (fst (Debug.debug_print 5 2 "ready" (Some "settings") None
                (Some "load") []), Return tt).
Proof.
  apply (debug_print_labels_only_for_none 5 2 "ready" (Some "settings") None
           (Some "load") [] _ (Return tt)).
  - reflexivity.
  - vm_compute. discriminate.
Defined.

(* ===================================================================== *)
(** * The value formatter                                                *)
(* ===================================================================== *)



Lemma without_slash_not_with (param : string) :
  param ∈ Settings.__PATH_WITHOUT_SLASH_PARAMETERS →
  param ∉ Settings.__PATH_WITH_SLASH_PARAMETERS.
Proof.
  unfold Settings.__PATH_WITHOUT_SLASH_PARAMETERS. intros Hin.
  repeat (apply elem_of_cons in Hin as [-> | Hin]);
    [.. | by apply elem_of_nil in Hin];
    by apply (bool_decide_eq_false_1 (_ ∈ _)).
Qed.

(** A key of the always-slash set is formatted as a path that ends with
    the separator, whatever the value. *)
Lemma format_value_with_slash_key (param : string) (raw : value) :
  param ∈ Settings.__PATH_WITH_SLASH_PARAMETERS →
  Settings._format_value param raw = Settings._format_path raw true.
Proof.
  intros Hin. unfold Settings._format_value, Settings.py_in.
  by rewrite bool_decide_eq_true_2.
Qed.

(** A key of the never-slash set is formatted as a path that does not end
    with the separator, whatever the value. *)
Lemma format_value_without_slash_key (param : string) (raw : value) :
  param ∈ Settings.__PATH_WITHOUT_SLASH_PARAMETERS →
  Settings._format_value param raw = Settings._format_path raw false.
Proof.
  intros Hin. unfold Settings._format_value, Settings.py_in.
  rewrite bool_decide_eq_false_2 by by apply without_slash_not_with.
  by rewrite bool_decide_eq_true_2.
Qed.




Lemma string_length_zero (s : string) :
  (String.length s =? 0)%nat = true ↔ s = EmptyString.
Proof. destruct s; cbn; split; intros; done. Qed.

Lemma str_last_snoc (s : string) (c : ascii) :
  str_last (s ++ String c EmptyString) = Some c.
Proof.
  induction s as [| x s IH]; [done |].
  change (str_last (String x (s ++ String c EmptyString)) = Some c).
  cbn [str_last]. rewrite IH.
  by destruct s.
Qed.

Lemma last_is_snoc (s : string) (c : ascii) :
  last_is c (s ++ String c EmptyString) = true.
Proof. unfold last_is. rewrite str_last_snoc. apply Ascii.eqb_refl. Qed.

(** With the separator asked for, a string comes back empty or with the
    separator at its end, and the empty string comes back empty. *)
Lemma format_path_with_slash (s : string) :
  ∃ s' : string,
    Settings._format_path (VStr s) true = Return (VStr s')
    ∧ (s' = EmptyString ∨ last_is "/" s' = true)
    ∧ (s = EmptyString → s' = EmptyString).
Proof.
  unfold Settings._format_path.
  destruct (String.length s =? 0)%nat eqn:Hlen.
  - apply string_length_zero in Hlen as ->. eauto.
  - assert (s ≠ EmptyString) as Hne.
    { intros ->. discriminate Hlen. }
    destruct (last_is "/" s) eqn:Hlast; cbn [andb negb].
    + exists s. eauto.
    + exists (s ++ "/"). repeat split; [| done].
      right. apply last_is_snoc.
Qed.


(** X23. The part of C6 on the always-slash set holds: the output for a
    string is empty or ends with the separator. *)
Lemma format_value_always_slash (param s : string) :
  param ∈ Settings.__PATH_WITH_SLASH_PARAMETERS →
  ∃ s' : string,
    Settings._format_value param (VStr s) = Return (VStr s')
    ∧ (s' = EmptyString ∨ last_is "/" s' = true).
Proof.
  intros Hin.
  rewrite (format_value_with_slash_key param (VStr s) Hin).
  destruct (format_path_with_slash s) as (s' & -> & Hend & _). eauto.
Qed.

(** The boundary of C6 holds: under either path class the empty string
    stays empty. *)
Lemma format_value_path_empty (param : string) :
  param ∈ Settings.__PATH_WITH_SLASH_PARAMETERS
  ∨ param ∈ Settings.__PATH_WITHOUT_SLASH_PARAMETERS →
  Settings._format_value param (VStr EmptyString) = Return (VStr EmptyString).
Proof.
  intros [Hin | Hin].
  - by rewrite (format_value_with_slash_key param _ Hin).
  - by rewrite (format_value_without_slash_key param _ Hin).
Qed.


(** C6 at the failing input. [MESSAGE_LOG] is in the never-slash set, of
    which the source says that its parameters never end with a slash; the
    raw value [logs//] is formatted to [logs/], which ends with the
    separator. *)
Theorem format_value_never_slash_leaves_separator :
  "MESSAGE_LOG" ∈ Settings.__PATH_WITHOUT_SLASH_PARAMETERS
  ∧ Settings._format_value "MESSAGE_LOG" (VStr "logs//") = Return (VStr "logs/")
  ∧ last_is "/" "logs/" = true.
Proof.
  repeat split. apply (bool_decide_eq_true_1 (_ ∈ _)). reflexivity.
Qed.

Lemma str_of_Z_not_a_keyword (z : Z) :
  String.eqb (lower (str_of_Z z)) "yes" || String.eqb (lower (str_of_Z z)) "true"
  = false
  ∧ String.eqb (lower (str_of_Z z)) "no" || String.eqb (lower (str_of_Z z)) "false"
    = false.
Proof.
  unfold str_of_Z, Z.to_int, NilZero.string_of_int, NilZero.string_of_uint.
  destruct z as [| p | p]; [done | |];
    destruct (Pos.to_uint p); vm_compute; done.
Qed.

Lemma format_value_plain (param : string) (v : value) :
  param ∉ Settings.__PATH_WITH_SLASH_PARAMETERS →
  param ∉ Settings.__PATH_WITHOUT_SLASH_PARAMETERS →
  Settings._format_value param v
  = if String.eqb (lower (str v)) "yes" || String.eqb (lower (str v)) "true"
    then Return (VBool true)
    else if String.eqb (lower (str v)) "no"
            || String.eqb (lower (str v)) "false"
    then Return (VBool false)
    else match int v with
         | Return z => Return (VInt z)
         | Raise OverflowError => Raise OverflowError
         | Raise _ => Return v
         end.
Proof.
  intros Hwith Hwithout. unfold Settings._format_value, Settings.py_in.
  rewrite !bool_decide_eq_false_2 by done.
  destruct v as [| b | z | x | text code | s | items | items]; cbn [int]; try done.
  - by destruct x.
  - by destruct (int_of_str s).
Qed.

(** X19. Outside the never-slash set the formatter is idempotent: a value
    it returns is returned as it is. *)
Lemma format_value_idempotent_outside_never_slash (param : string) (v v' : value) :
  param ∉ Settings.__PATH_WITHOUT_SLASH_PARAMETERS →
  Settings._format_value param v = Return v' →
  Settings._format_value param v' = Return v'.
Proof.
  intros Hwithout Hrun.
  destruct (decide (param ∈ Settings.__PATH_WITH_SLASH_PARAMETERS)) as [Hin | Hwith].
  - rewrite (format_value_with_slash_key param v Hin) in Hrun.
    rewrite (format_value_with_slash_key param v' Hin).
    destruct v as [| b | z | x | text code | s | items | items]; try discriminate Hrun.
    + destruct (format_path_with_slash s) as (s' & Heq & Hend & _).
      rewrite Heq in Hrun. injection Hrun as <-.
      unfold Settings._format_path.
      destruct Hend as [-> | Hend]; [done |].
      destruct (String.length s' =? 0)%nat; [done |]. by rewrite Hend.
    + unfold Settings._format_path in Hrun.
      destruct (last items) as [item |] eqn:Hlast.
      * destruct (is_slash item) eqn:Hitem; [| discriminate Hrun].
        injection Hrun as <-. unfold Settings._format_path.
        by rewrite Hlast, Hitem.
      * injection Hrun as <-. unfold Settings._format_path. by rewrite Hlast.
    + unfold Settings._format_path in Hrun.
      destruct (length items =? 0)%nat eqn:Hlen.
      * injection Hrun as <-. unfold Settings._format_path. by rewrite Hlen.
      * destruct (dict_minus_one items) as [item |] eqn:Hitem;
          [| discriminate Hrun].
        destruct (is_slash item) eqn:Hslash; [| discriminate Hrun].
        injection Hrun as <-. unfold Settings._format_path.
        by rewrite Hlen, Hitem, Hslash.
  - rewrite (format_value_plain param v) in Hrun by done.
    rewrite (format_value_plain param v') by done.
    destruct (String.eqb (lower (str v)) "yes" || String.eqb (lower (str v)) "true")
      eqn:Hyes.
    { by injection Hrun as <-. }
    destruct (String.eqb (lower (str v)) "no" || String.eqb (lower (str v)) "false")
      eqn:Hno.
    { by injection Hrun as <-. }
    destruct (int v) as [z | e] eqn:Hint.
    + injection Hrun as <-. cbn [str repr int].
      destruct (str_of_Z_not_a_keyword z) as [-> ->]. done.
    + destruct e; try discriminate Hrun; injection Hrun as <-;
        by rewrite Hyes, Hno, Hint.
Qed.

(** C7 at the failing input. For [MESSAGE_LOG], of the never-slash set,
    formatting [logs//] gives [logs/], and formatting that gives [logs]:
    the second pass changes the result of the first. *)
Theorem format_value_second_pass_differs :
  Settings._format_value "MESSAGE_LOG" (VStr "logs//") = Return (VStr "logs/")
  ∧ Settings._format_value "MESSAGE_LOG" (VStr "logs/") = Return (VStr "logs")
  ∧ VStr "logs" ≠ VStr "logs/".
Proof. by repeat split. Qed.

(* ===================================================================== *)
(** * Loading                                                            *)
(* ===================================================================== *)

Section LoadProperties.
Context `{Settings.Host}.

Lemma get_config_file_returns (settings_path : option string)
    (program_path : string) :
  ∃ config_file : string,
    Settings._get_config_file settings_path program_path = Return config_file.
Proof.
  unfold Settings._get_config_file.
  destruct settings_path as [p |]; [| eauto].
  destruct (format_path_with_slash p) as (p' & -> & _). cbn. eauto.
Qed.

(** C2, amended. When the config file is missing, or is there and is not
    valid YAML, [load_settings_from_yaml] raises [FileNotFoundError] or
    [YAMLError], and the only attribute of [Settings] the failing call
    has changed is [PROGRAM_PATH], set to the directory of the program
    before the file is opened; no setting is installed. *)
Theorem load_failure_installs_no_setting (settings_path : option string)
    (attrs : gmap string value) (files : gmap string string)
    (config_file : string) :
  Settings._get_config_file settings_path (Settings.module_dir ++ "/")
  = Return config_file →
  (files !! config_file = None →
   Settings.load_settings_from_yaml settings_path attrs files
   = (<["PROGRAM_PATH" := VStr (Settings.module_dir ++ "/")]> attrs,
      Raise FileNotFoundError))
  ∧ (∀ text : string,
       files !! config_file = Some text →
       Settings.yaml_load text = None →
       Settings.load_settings_from_yaml settings_path attrs files
       = (<["PROGRAM_PATH" := VStr (Settings.module_dir ++ "/")]> attrs,
          Raise YAMLError)).
Proof.
  intros Hfile. unfold Settings.load_settings_from_yaml. rewrite Hfile.
  split.
  - by intros ->.
  - by intros text -> ->.
Qed.

End LoadProperties.

Lemma load_failure_installs_no_setting_witness :
  @Settings.load_settings_from_yaml sample_host None initial_attrs ∅
  = (<["PROGRAM_PATH" := VStr "/opt/zipatoserver/"]> initial_attrs,
     Raise FileNotFoundError)
  ∧ @Settings.load_settings_from_yaml sample_host (Some "/etc") initial_attrs
      {[ "/etc/zipatoserver.conf" := "a: [1" ++ nl ]}
    = (<["PROGRAM_PATH" := VStr "/opt/zipatoserver/"]> initial_attrs,
       Raise YAMLError).
Proof.
  split.
  - apply (proj1 (@load_failure_installs_no_setting sample_host None
                    initial_attrs ∅ "/opt/zipatoserver/zipatoserver.conf"
                    eq_refl)).
    reflexivity.
  - apply (proj2 (@load_failure_installs_no_setting sample_host (Some "/etc")
                    initial_attrs {[ "/etc/zipatoserver.conf" := "a: [1" ++ nl ]}
                    "/etc/zipatoserver.conf" eq_refl) ("a: [1" ++ nl));
      reflexivity.
Defined.

(** C2, as the specification has it, fails on [PROGRAM_PATH]: a first load
    with no config file raises, and [PROGRAM_PATH], [None] before the call,
    holds the directory of the program after it. *)
Lemma load_failure_sets_program_path :
  ∃ attrs' : gmap string value,
    @Settings.load_settings_from_yaml sample_host None initial_attrs ∅
    = (attrs', Raise FileNotFoundError)
    ∧ initial_attrs !! "PROGRAM_PATH" = Some VNone
    ∧ attrs' !! "PROGRAM_PATH" = Some (VStr "/opt/zipatoserver/").
Proof. eexists. repeat split. Qed.

(* ===================================================================== *)
(** * Writing: the replacement of the file                               *)
(* ===================================================================== *)

Lemma files_after_cons (op : Settings.file_op) (ops : list Settings.file_op)
    (files : gmap string string) :
  files_after (op :: ops) files = files_after ops (Settings.apply_op op files).
Proof. reflexivity. Qed.

Lemma run_ops_no_fault (ops : list Settings.file_op) (files : gmap string string) :
  Settings.run_ops ops None files = (files_after ops files, Return tt).
Proof. revert files. induction ops as [| op ops IH]; intros files; cbn; auto. Qed.

Lemma run_ops_fault (ops : list Settings.file_op) (k : nat)
    (files : gmap string string) :
  (k < length ops)%nat →
  Settings.run_ops ops (Some k) files
  = (files_after (take k ops) files, Raise OSError).
Proof.
  revert k files. induction ops as [| op ops IH]; intros k files Hk; cbn in Hk.
  - lia.
  - destruct k as [| k]; cbn; [done |]. apply IH. lia.
Qed.

Lemma run_ops_fault_late (ops : list Settings.file_op) (k : nat)
    (files : gmap string string) :
  (length ops ≤ k)%nat →
  Settings.run_ops ops (Some k) files = (files_after ops files, Return tt).
Proof.
  revert k files. induction ops as [| op ops IH]; intros k files Hk; cbn in Hk.
  - done.
  - destruct k as [| k]; cbn; [lia |]. apply IH. lia.
Qed.

Lemma apply_op_writes_only (tmp path : string) (op : Settings.file_op)
    (files : gmap string string) :
  writes_only tmp op → path ≠ tmp →
  Settings.apply_op op files !! path = files !! path.
Proof.
  destruct op as [p | p c | src dst]; cbn; [intros -> Hne .. | done].
  - by rewrite lookup_insert_ne.
  - destruct (files !! tmp); [| done]. by rewrite lookup_insert_ne.
Qed.

Lemma files_after_writes_only (tmp path : string) (ops : list Settings.file_op)
    (files : gmap string string) :
  Forall (writes_only tmp) ops → path ≠ tmp →
  files_after ops files !! path = files !! path.
Proof.
  intros Hops Hne. revert files.
  induction Hops as [| op ops Hop Hops IH]; intros files; [done |].
  rewrite files_after_cons, IH. by apply (apply_op_writes_only tmp).
Qed.

Lemma writelines_writes_only (tmp text : string) :
  Forall (writes_only tmp) (Settings.writelines tmp text).
Proof. induction text as [| c text IH]; cbn; constructor; done. Qed.

Lemma writelines_length (tmp text : string) :
  length (Settings.writelines tmp text) = String.length text.
Proof. induction text as [| c text IH]; cbn; [done | by rewrite IH]. Qed.

Lemma files_after_writelines (tmp text acc : string) (files : gmap string string) :
  files !! tmp = Some acc →
  files_after (Settings.writelines tmp text) files !! tmp = Some (acc ++ text).
Proof.
  revert acc files. induction text as [| c text IH]; intros acc files Hacc.
  - cbn. rewrite Hacc. f_equal. clear. induction acc as [| x acc IH]; [done |].
    change (String x acc = String x (acc ++ EmptyString)). by rewrite <- IH.
  - change (Settings.writelines tmp (String c text))
      with (Settings.Append tmp c :: Settings.writelines tmp text).
    rewrite files_after_cons. cbn [Settings.apply_op]. rewrite Hacc.
    rewrite (IH (acc ++ String c EmptyString)) by by rewrite lookup_insert_eq.
    by rewrite string_app_assoc.
Qed.

Lemma string_length_app (a b : string) :
  String.length (a ++ b) = (String.length a + String.length b)%nat.
Proof.
  induction a as [| x a IH]; [done |].
  change (S (String.length (a ++ b)) = S (String.length a + String.length b)).
  by rewrite IH.
Qed.

Lemma temp_file_differs (config_file : string) : config_file ≠ config_file ++ "~".
Proof.
  intros Heq. apply (f_equal String.length) in Heq.
  rewrite string_length_app in Heq. cbn in Heq. lia.
Qed.

Lemma replace_ops_split (config_file text : string) :
  Settings.replace_ops config_file text
  = ((Settings.Truncate (config_file ++ "~")
      :: Settings.writelines (config_file ++ "~") text)
     ++ [Settings.Rename (config_file ++ "~") config_file])%list.
Proof. reflexivity. Qed.

Lemma replace_ops_length (config_file text : string) :
  length (Settings.replace_ops config_file text) = (String.length text + 2)%nat.
Proof.
  rewrite replace_ops_split, length_app. cbn [length].
  rewrite writelines_length. lia.
Qed.

(** Before the rename the operations leave the config file as it is. *)
Lemma replace_ops_prefix_keeps_target
    (config_file text : string) (k : nat) (files : gmap string string) :
  (k < length (Settings.replace_ops config_file text))%nat →
  files_after (take k (Settings.replace_ops config_file text)) files
    !! config_file
  = files !! config_file.
Proof.
  intros Hk. rewrite replace_ops_length in Hk.
  rewrite replace_ops_split, take_app_le
    by (cbn [length]; rewrite writelines_length; lia).
  apply (files_after_writes_only (config_file ++ "~")).
  - apply Forall_take. constructor; [done | apply writelines_writes_only].
  - apply temp_file_differs.
Qed.

(** Once the text is written the temporary file holds all of it. *)
Lemma temp_file_complete (config_file text : string) (files : gmap string string) :
  files_after
    (Settings.Truncate (config_file ++ "~")
     :: Settings.writelines (config_file ++ "~") text) files
    !! (config_file ++ "~")
  = Some text.
Proof.
  rewrite files_after_cons. cbn [Settings.apply_op].
  by rewrite (files_after_writelines _ text EmptyString)
    by by rewrite lookup_insert_eq.
Qed.

Section WriteProperties.
Context `{Settings.Host}.

(** C3. [write_settings_to_file] writes the new text to
    [config_file + '~'] and then renames that file to [config_file].
    When the call raises, at whatever step, the config file holds what it
    held before.  A call that fails its [k]-th file operation ends in the
    state the files are in after [k] operations, so these are the states
    a reader can meet: in each of them the config file has its previous
    content, and before the rename the temporary file has the whole new
    text.  When the call returns, the config file has the whole new text
    and the temporary file is gone. *)
Theorem write_settings_replaces_atomically
    (settings_json : list (string * value)) (settings_path : option string)
    (files : gmap string string) (config_file : string) :
  Settings._get_config_file settings_path (Settings.module_dir ++ "/")
  = Return config_file →
  (∀ (fault : option nat) (files' : gmap string string) (e : exn),
     Settings.write_settings_to_file settings_json settings_path fault files
     = (files', Raise e) →
     files' !! config_file = files !! config_file)
  ∧ (∀ content text : string,
       files !! config_file = Some content →
       Settings.settings_text (readlines content) settings_json = Return text →
       let ops := Settings.replace_ops config_file text in
       (∀ k : nat,
          (k < length ops)%nat →
          Settings.write_settings_to_file settings_json settings_path
            (Some k) files
          = (files_after (take k ops) files, Raise OSError)
          ∧ files_after (take k ops) files !! config_file = Some content)
       ∧ files_after (take (length ops - 1) ops) files
           !! (config_file ++ "~")
         = Some text
       ∧ Settings.write_settings_to_file settings_json settings_path None
           files
         = (files_after ops files, Return tt)
       ∧ files_after ops files !! config_file = Some text
       ∧ files_after ops files !! (config_file ++ "~") = None).
Proof.
  intros Hcfg. split.
  - intros fault files' e Hrun.
    unfold Settings.write_settings_to_file in Hrun. rewrite Hcfg in Hrun.
    destruct (files !! config_file) as [content |] eqn:Hold;
      [| by injection Hrun as <- _].
    destruct (Settings.settings_text (readlines content) settings_json)
      as [text | e']; [| by injection Hrun as <- _].
    destruct fault as [k |].
    + destruct (decide (k < length (Settings.replace_ops config_file text))%nat)
        as [Hk | Hk].
      * rewrite run_ops_fault in Hrun by done. injection Hrun as <- _.
        rewrite replace_ops_prefix_keeps_target by done. done.
      * rewrite run_ops_fault_late in Hrun by lia. discriminate Hrun.
    + rewrite run_ops_no_fault in Hrun. discriminate Hrun.
  - intros content text Hold Htext ops.
    unfold Settings.write_settings_to_file. rewrite Hcfg, Hold, Htext.
    pose proof (replace_ops_length config_file text) as Hlen.
    pose proof (temp_file_complete config_file text files) as Htmp.
    fold ops in Hlen.
    assert (files_after ops files
            = Settings.apply_op
                (Settings.Rename (config_file ++ "~") config_file)
                (files_after
                   (Settings.Truncate (config_file ++ "~")
                    :: Settings.writelines (config_file ++ "~") text) files))
      as Hlast.
    { unfold ops, files_after. rewrite replace_ops_split. by rewrite foldl_app. }
    repeat split.
    + by apply run_ops_fault.
    + unfold ops. rewrite replace_ops_prefix_keeps_target by done. done.
    + unfold ops at 2. rewrite replace_ops_split, take_app_le, take_ge; [done | |];
        cbn [length]; rewrite ?writelines_length; lia.
    + apply run_ops_no_fault.
    + rewrite Hlast. cbn [Settings.apply_op]. rewrite Htmp.
      apply lookup_insert_eq.
    + rewrite Hlast. cbn [Settings.apply_op]. rewrite Htmp.
      rewrite lookup_insert_ne by apply temp_file_differs.
      apply lookup_delete_eq.
Qed.

End WriteProperties.

Example scenario_text :
  @Settings.settings_text sample_host (readlines scenario_old) scenario_settings
  = Return scenario_new.
Proof. reflexivity. Qed.

Lemma write_settings_replaces_atomically_witness :
  let ops := Settings.replace_ops "/etc/zipatoserver.conf" scenario_new in
  (@Settings.write_settings_to_file sample_host scenario_settings (Some "/etc")
     (Some 5%nat) scenario_files
   = (files_after (take 5 ops) scenario_files, Raise OSError)
   ∧ files_after (take 5 ops) scenario_files !! "/etc/zipatoserver.conf"
     = Some scenario_old)
  ∧ @Settings.write_settings_to_file sample_host scenario_settings (Some "/etc")
      None scenario_files
    = (files_after ops scenario_files, Return tt)
  ∧ files_after ops scenario_files !! "/etc/zipatoserver.conf"
    = Some scenario_new
  ∧ files_after ops scenario_files !! "/etc/zipatoserver.conf~" = None.
Proof.
  intros ops.
  destruct (@write_settings_replaces_atomically sample_host scenario_settings
              (Some "/etc") scenario_files "/etc/zipatoserver.conf" eq_refl)
    as [_ Hsteps].
  destruct (Hsteps scenario_old scenario_new eq_refl eq_refl)
    as (Hmid & _ & Hrun & Hnew & Htmp).
  split; [| by repeat split].
  apply (Hmid 5%nat). vm_compute. lia.
Defined.

(* ===================================================================== *)
(** * Writing: the comments of the old file                              *)
(* ===================================================================== *)

Lemma upto_first_colon_key (key rest : string) :
  no_colon_no_line_end key = true →
  upto_first_colon (key_line key rest) = Some key.
Proof.
  unfold key_line. induction key as [| c key IH]; [done |].
  change (String c key ++ ":" ++ rest) with (String c (key ++ ":" ++ rest)).
  cbn [no_colon_no_line_end upto_first_colon]. intros Hkey.
  apply andb_prop in Hkey as [Hc Hkey].
  apply andb_prop in Hc as [Hcolon%negb_true_iff Hend%negb_true_iff].
  by rewrite Hcolon, Hend, IH.
Qed.

Lemma match_param_key (key rest : string) :
  key_text key → match_param (key_line key rest) = Some key.
Proof.
  intros (Hne & Hkey & _). destruct key as [| c key]; [done |].
  pose proof (upto_first_colon_key (String c key) rest Hkey) as Hscan.
  unfold key_line in *.
  change (String c key ++ ":" ++ rest) with (String c (key ++ ":" ++ rest)) in *.
  cbn [match_param upto_first_colon no_colon_no_line_end] in *.
  apply andb_prop in Hkey as [Hc Hkey].
  apply andb_prop in Hc as [Hcolon%negb_true_iff Hend%negb_true_iff].
  rewrite Hend. rewrite Hcolon, Hend in Hscan.
  by destruct (upto_first_colon (key ++ ":" ++ rest)).
Qed.

Lemma key_line_head (key rest : string) :
  key_text key →
  ∃ c : ascii, str_head (key_line key rest) = Some c ∧ Ascii.eqb c "#" = false.
Proof.
  intros (Hne & _ & Hhead). destruct key as [| c key]; [done |].
  exists c. split; [done |]. apply Ascii.eqb_neq. intros ->. by apply Hhead.
Qed.

Lemma key_line_is_no_comment (key rest : string) :
  key_text key → Settings.is_comment (key_line key rest) = false.
Proof.
  intros Hkey. destruct (key_line_head key rest Hkey) as (c & Hc & Hneq).
  unfold Settings.is_comment. rewrite Hc, Hneq. apply andb_false_r.
Qed.

Lemma comment_head (line : string) :
  Settings.is_comment line = true → str_head line = Some "#"%char.
Proof.
  unfold Settings.is_comment. intros [_ Hhead]%andb_prop.
  destruct (str_head line) as [c |]; [| done].
  by apply Ascii.eqb_eq in Hhead as ->.
Qed.

(** [strip] keeps the marker of a comment line. *)
Lemma strip_keeps_marker (line : string) :
  Settings.is_comment line = true → str_head (strip line) = Some "#"%char.
Proof.
  intros Hline%comment_head. destruct line as [| c line]; [done |].
  injection Hline as ->. unfold strip. cbn [lstrip_with].
  change (is_space "#") with false. cbn iota.
  cbn [rstrip_with]. change (is_space "#") with false.
  by destruct (rstrip_with is_space line).
Qed.

(** The scan over one block and the line of its key. *)
Lemma read_comments_block (block : list string) (key rest : string)
    (tail comment : list string) (param_comments : gmap string (list string)) :
  block ≠ [] →
  Forall (fun line => Settings.is_comment line = true) block →
  key_text key →
  Settings.read_comments (block ++ key_line key rest :: tail) comment
    param_comments
  = Settings.read_comments tail []
      (<[key := (comment ++ (strip <$> block))%list]> param_comments).
Proof.
  intros Hne Hblock Hkey. revert comment.
  induction Hblock as [| line block Hline Hblock IH]; intros comment; [done |].
  cbn [app Settings.read_comments]. rewrite Hline.
  destruct block as [| next block].
  - cbn [app]. destruct (key_line_head key rest Hkey) as (c & -> & ->).
    cbn [negb]. rewrite (match_param_key key rest Hkey).
    cbn [Settings.read_comments].
    rewrite (key_line_is_no_comment key rest Hkey). done.
  - cbn [app]. inversion Hblock as [| ? ? Hnext _]; subst.
    rewrite (comment_head next Hnext), Ascii.eqb_refl. cbn [negb].
    change (next :: (block ++ key_line key rest :: tail))%list
      with ((next :: block) ++ key_line key rest :: tail)%list.
    rewrite IH by done. by rewrite <- app_assoc.
Qed.

(** The scan over a layout. *)
Lemma read_comments_layout (entries : list entry)
    (param_comments : gmap string (list string)) :
  Forall entry_ok entries →
  Settings.read_comments (file_lines entries) [] param_comments
  = Return (block_map entries param_comments).
Proof.
  intros Hok. revert param_comments.
  induction Hok as [| e entries He Hok IH]; intros param_comments; [done |].
  unfold file_lines. rewrite fmap_cons, concat_cons. fold (file_lines entries).
  destruct e as [line | block key rest]; cbn [entry_lines entry_ok block_map] in *.
  - cbn [app Settings.read_comments]. rewrite He. apply IH.
  - destruct He as (Hne & Hblock & Hkey).
    rewrite <- app_assoc. cbn [app].
    rewrite read_comments_block by done. apply IH.
Qed.

Lemma block_map_lookup_other (entries : list entry)
    (acc : gmap string (list string)) (key : string) :
  key ∉ commented_keys entries → block_map entries acc !! key = acc !! key.
Proof.
  revert acc. induction entries as [| [line | block k rest] entries IH];
    intros acc Hkey; cbn [block_map commented_keys] in *; [done | auto |].
  apply not_elem_of_cons in Hkey as [Hne Hkey].
  rewrite IH by done. by rewrite lookup_insert_ne.
Qed.

Lemma block_map_lookup (entries : list entry) (acc : gmap string (list string))
    (block : list string) (key rest : string) :
  NoDup (commented_keys entries) →
  Commented block key rest ∈ entries →
  block_map entries acc !! key = Some (strip <$> block).
Proof.
  revert acc. induction entries as [| [line | b k r] entries IH];
    intros acc Hdup Hin; cbn [block_map commented_keys] in *.
  - by apply elem_of_nil in Hin.
  - apply elem_of_cons in Hin as [[=] | Hin]. by apply IH.
  - apply NoDup_cons in Hdup as [Hfresh Hdup].
    apply elem_of_cons in Hin as [[= <- <- <-] | Hin]; [| by apply IH].
    rewrite block_map_lookup_other by done. apply lookup_insert_eq.
Qed.

Lemma block_map_size (entries : list entry) (acc : gmap string (list string)) :
  NoDup (commented_keys entries) →
  (∀ key : string, key ∈ commented_keys entries → acc !! key = None) →
  size (block_map entries acc) = (size acc + length (commented_keys entries))%nat.
Proof.
  revert acc. induction entries as [| [line | b k r] entries IH];
    intros acc Hdup Hfree; cbn [block_map commented_keys length] in *.
  - lia.
  - by apply IH.
  - apply NoDup_cons in Hdup as [Hfresh Hdup].
    rewrite IH; [| done |].
    + rewrite map_size_insert_None by (apply Hfree; apply elem_of_cons; auto).
      lia.
    + intros key Hkey. rewrite lookup_insert_ne by (intros ->; done).
      apply Hfree. apply elem_of_cons. auto.
Qed.

(** C4, as the specification has it, fails on the scenario of the
    specification: the comment of [b] keeps its marker, and [a], which has
    no comment, is not in the mapping.  It fails as well on a file with
    one key under its comment block and, above them, a comment that is
    followed by a blank line: there the scan returns no mapping, it
    raises [AttributeError]. *)
Lemma read_comments_against_contract :
  (∃ param_comments : gmap string (list string),
     Settings.read_comments (readlines scenario_old) [] ∅ = Return param_comments
     ∧ param_comments !! "b" = Some ["# note"]
     ∧ param_comments !! "b" ≠ Some ["note"]
     ∧ param_comments !! "a" = None
     ∧ param_comments !! "a" ≠ Some [])
  ∧ Settings.read_comments
      (readlines ("# header" ++ nl ++ nl ++ "# c1" ++ nl ++ "a: 1" ++ nl)) [] ∅
    = Raise AttributeError.
Proof.
  split; [| reflexivity].
  eexists. repeat split; vm_compute; discriminate.
Qed.

(** C4, amended. For a file in which every block of comment lines is
    followed at once by the line of a key (a text that is not empty, has
    no colon and does not start with the marker, then a colon), all
    other lines being no comments, and with [N] distinct keys under such
    a block, the comment scan of [write_settings_to_file] returns exactly
    [N] associations: each key is mapped to the lines of the block right
    above it, stripped of the white space around them and with the
    comment marker kept; a key with no comment block right above it has
    no association. *)
Theorem read_comments_of_layout (entries : list entry) :
  Forall entry_ok entries →
  NoDup (commented_keys entries) →
  ∃ param_comments : gmap string (list string),
    Settings.read_comments (file_lines entries) [] ∅ = Return param_comments
    ∧ size param_comments = length (commented_keys entries)
    ∧ (∀ (block : list string) (key rest : string),
         Commented block key rest ∈ entries →
         param_comments !! key = Some (strip <$> block)
         ∧ Forall (fun line => str_head line = Some "#"%char) (strip <$> block))
    ∧ (∀ key : string,
         key ∉ commented_keys entries → param_comments !! key = None).
Proof.
  intros Hok Hdup. exists (block_map entries ∅).
  split; [by apply read_comments_layout |]. split; [| split].
  - rewrite block_map_size by done. by rewrite map_size_empty.
  - intros block key rest Hin. split; [by apply (block_map_lookup _ _ _ _ rest) |].
    apply Forall_fmap.
    assert (entry_ok (Commented block key rest)) as (_ & Hblock & _).
    { by apply (proj1 (Forall_forall _ _) Hok). }
    eapply Forall_impl; [exact Hblock |]. apply strip_keeps_marker.
  - intros key Hkey. by rewrite block_map_lookup_other.
Qed.

Example sample_layout_scan :
  Settings.read_comments (file_lines sample_layout) [] ∅
  = Return {[ "a" := ["# server"; "#  port"]; "b" := ["# note"] ]}.
Proof. reflexivity. Qed.

Lemma read_comments_of_layout_witness :
  Forall entry_ok sample_layout
  ∧ NoDup (commented_keys sample_layout)
  ∧ ∃ param_comments : gmap string (list string),
      Settings.read_comments (file_lines sample_layout) [] ∅
      = Return param_comments
      ∧ size param_comments = length (commented_keys sample_layout)
      ∧ (∀ (block : list string) (key rest : string),
           Commented block key rest ∈ sample_layout →
           param_comments !! key = Some (strip <$> block)
           ∧ Forall (fun line => str_head line = Some "#"%char)
               (strip <$> block))
      ∧ (∀ key : string,
           key ∉ commented_keys sample_layout → param_comments !! key = None).
Proof.
  assert (Forall entry_ok sample_layout) as Hok.
  { repeat constructor; discriminate. }
  assert (NoDup (commented_keys sample_layout)) as Hdup.
  { apply (bool_decide_eq_true_1 (NoDup _)). reflexivity. }
  split; [exact Hok |]. split; [exact Hdup |].
  exact (read_comments_of_layout sample_layout Hok Hdup).
Defined.

(* ===================================================================== *)
(** * Writing: the comments in the new text                              *)
(* ===================================================================== *)

Lemma py_insert_at_end {A : Type} (pre post : list A) (x : A) :
  Settings.py_insert (length pre) x (pre ++ post) = (pre ++ x :: post)%list.
Proof.
  unfold Settings.py_insert. by rewrite take_app_length, drop_app_length.
Qed.

Lemma insert_block_at (comments pre post : list string) :
  Settings.insert_block comments (pre ++ post) (length pre)
  = ((pre ++ comments ++ post)%list, (length pre + length comments)%nat).
Proof.
  revert pre. induction comments as [| comment comments IH]; intros pre.
  - cbn. f_equal. lia.
  - cbn [Settings.insert_block]. rewrite py_insert_at_end.
    replace (S (length pre)) with (length (pre ++ [comment])%list)
      by (rewrite length_app; cbn; lia).
    replace (pre ++ comment :: post)%list with ((pre ++ [comment]) ++ post)%list
      by by rewrite <- app_assoc.
    rewrite IH, length_app, <- app_assoc. cbn. f_equal. lia.
Qed.

(** The [while] loop ends within as many rounds as there are lines left,
    and makes of them what [add_comments] says. *)
Lemma comment_loop_from (todo done : list string)
    (param_comments : gmap string (list string)) (fuel : nat) :
  (length todo ≤ fuel)%nat →
  Settings.comment_loop fuel (done ++ todo) (length done) param_comments
  = Some (done ++ Settings.add_comments todo param_comments)%list.
Proof.
  revert done param_comments fuel.
  induction todo as [| line rest IH]; intros done param_comments fuel Hfuel.
  - destruct fuel; cbn [Settings.comment_loop Settings.add_comments];
      rewrite lookup_ge_None_2 by (rewrite length_app; cbn; lia); done.
  - destruct fuel as [| fuel]; cbn [length] in Hfuel; [lia |].
    cbn [Settings.comment_loop Settings.add_comments].
    rewrite list_lookup_middle by done.
    destruct (match_top_level line) as [param |].
    + rewrite py_insert_at_end.
      destruct (param_comments !! param) as [comments |].
      * replace (S (length done)) with (length (done ++ [EmptyString])%list)
          by (rewrite length_app; cbn; lia).
        replace (done ++ EmptyString :: line :: rest)%list
          with ((done ++ [EmptyString]) ++ line :: rest)%list
          by by rewrite <- app_assoc.
        rewrite insert_block_at.
        replace ((done ++ [EmptyString]) ++ comments ++ line :: rest)%list
          with ((done ++ EmptyString :: comments ++ [line]) ++ rest)%list
          by (rewrite <- !app_assoc; cbn; by rewrite <- app_assoc).
        replace (S (length (done ++ [EmptyString]) + length comments))
          with (length (done ++ EmptyString :: comments ++ [line])%list)
          by (rewrite !length_app; cbn; rewrite length_app; cbn; lia).
        rewrite IH by lia. f_equal.
        rewrite <- !app_assoc. cbn. by rewrite <- app_assoc.
      * replace (S (S (length done)))
          with (length (done ++ [EmptyString; line])%list)
          by (rewrite length_app; cbn; lia).
        replace (done ++ EmptyString :: line :: rest)%list
          with ((done ++ [EmptyString; line]) ++ rest)%list
          by by rewrite <- app_assoc.
        rewrite IH by lia. by rewrite <- app_assoc.
    + replace (S (length done)) with (length (done ++ [line])%list)
        by (rewrite length_app; cbn; lia).
      replace (done ++ line :: rest)%list with ((done ++ [line]) ++ rest)%list
        by by rewrite <- app_assoc.
      rewrite IH by lia. by rewrite <- app_assoc.
Qed.

(** X21. The [while] loop of the writer ends within as many rounds as
    the YAML text has lines, and returns what [add_comments] makes of the
    lines. *)
Lemma comment_loop_total (settings_list : list string)
    (param_comments : gmap string (list string)) :
  Settings.comment_loop (length settings_list) settings_list 0 param_comments
  = Some (Settings.add_comments settings_list param_comments).
Proof. by apply (comment_loop_from settings_list []). Qed.

(* ===================================================================== *)
(** * Loading, writing and loading again                                 *)
(* ===================================================================== *)

(** The scenario of the specification: the file [a: 1], [# note],
    [b: yes] loads as [a = 1], [b = True]; written back, the note stands
    right above the line of [b]; loaded again, the settings are the same. *)
Example scenario_round_trip :
  ∃ (attrs files' : _),
    @Settings.load_settings_from_yaml sample_host (Some "/etc") initial_attrs
      scenario_files
    = (attrs, Return tt)
    ∧ attrs !! "a" = Some (VInt 1) ∧ attrs !! "b" = Some (VBool true)
    ∧ @Settings.write_settings_to_file sample_host scenario_settings
        (Some "/etc") None scenario_files
      = (files', Return tt)
    ∧ files' !! "/etc/zipatoserver.conf" = Some scenario_new
    ∧ @Settings.load_settings_from_yaml sample_host (Some "/etc") initial_attrs
        files'
      = (attrs, Return tt).
Proof. do 2 eexists. repeat split; reflexivity. Qed.

(** A comment on the last line of the file stops the writer: the scan
    reads the line after it. *)
Example read_comments_trailing_comment :
  Settings.read_comments (readlines ("a: 1" ++ nl ++ "# end" ++ nl)) [] ∅
  = Raise IndexError.
Proof. reflexivity. Qed.

(** C1 at the failing input. The file [MESSAGE_LOG: logs//] loads as
    [MESSAGE_LOG = logs/]; the writer formats that value once more and
    writes [MESSAGE_LOG: logs]; the second load yields [logs], not the
    [logs/] of the first. *)
Theorem round_trip_changes_never_slash_setting :
  let loaded :=
    @Settings.load_settings_from_yaml sample_host (Some "/etc") initial_attrs
      doubled_separator_files in
  let written :=
    @Settings.write_settings_to_file sample_host
      [("MESSAGE_LOG", VStr "logs/")] (Some "/etc") None
      doubled_separator_files in
  let reloaded :=
    @Settings.load_settings_from_yaml sample_host (Some "/etc") initial_attrs
      written.1 in
  loaded.2 = Return tt
  ∧ loaded.1 !! "MESSAGE_LOG" = Some (VStr "logs/")
  ∧ written.2 = Return tt
  ∧ written.1 !! "/etc/zipatoserver.conf" = Some ("MESSAGE_LOG: logs" ++ nl)
  ∧ reloaded.2 = Return tt
  ∧ reloaded.1 !! "MESSAGE_LOG" = Some (VStr "logs")
  ∧ reloaded.1 !! "MESSAGE_LOG" ≠ loaded.1 !! "MESSAGE_LOG".
Proof. vm_compute. repeat split. discriminate. Qed.

(** The settings page on the scenario of the specification: the comment
    of [b] has lost its marker and ends with a blank; [a] has the empty
    comment. *)
Example render_comments_scenario :
  Settings.render_comments scenario_settings (readlines scenario_old)
  = Return {[ "a" := EmptyString; "b" := "note " ]}.
Proof. vm_compute. reflexivity. Qed.

(** A comment below the last key has no key to go to. *)
Example render_comments_trailing_comment :
  Settings.render_comments [("a", VInt 1)]
    (readlines ("a: 1" ++ nl ++ "# end" ++ nl))
  = Raise KeyError.
Proof. reflexivity. Qed.

(** The settings page of the scenario of the specification, with
    [WEB_API_PATH] set to [/api/]. *)
Example render_scenario :
  @Settings.render_settings_html sample_host (Some "/etc")
    (<["WEB_API_PATH" := VStr "/api/"]> initial_attrs) scenario_files
  = Return {| Settings.template := "settings.html";
              Settings.constants := scenario_settings;
              Settings.comments := {[ "a" := EmptyString; "b" := "note " ]};
              Settings.save_settings_path := "/api/save_settings";
              Settings.remove_param_path := "/api/remove_param";
              Settings.add_param_path := "/api/add_param" |}.
Proof. vm_compute. reflexivity. Qed.

(* ===================================================================== *)
(** * More on the value formatter                                        *)
(* ===================================================================== *)

Lemma str_init_snoc (s : string) (c : ascii) :
  str_init (s ++ String c EmptyString) = s.
Proof.
  induction s as [| x s IH]; [done |].
  change (str_init (String x (s ++ String c EmptyString)) = String x s).
  cbn [str_init]. rewrite IH. by destruct s.
Qed.

Lemma string_snoc_not_empty (s : string) (c : ascii) :
  (String.length (s ++ String c EmptyString) =? 0)%nat = false.
Proof. rewrite string_length_app. cbn. apply Nat.eqb_neq. lia. Qed.

Lemma format_path_appends_slash (s : string) :
  s ≠ EmptyString →
  last_is "/" s = false →
  Settings._format_path (VStr s) true = Return (VStr (s ++ "/")).
Proof.
  intros Hne Hlast. unfold Settings._format_path.
  destruct (String.length s =? 0)%nat eqn:Hlen.
  - by apply string_length_zero in Hlen.
  - by rewrite Hlast.
Qed.

(** X1. For a path that is not empty and does not end with a slash,
    [_format_path] with the slash asked for appends one slash, and
    [_format_path] with the slash refused takes that slash away again. *)
Theorem format_path_slash_round_trip (s : string) :
  s ≠ EmptyString →
  last_is "/" s = false →
  Settings._format_path (VStr s) true = Return (VStr (s ++ "/"))
  ∧ Settings._format_path (VStr (s ++ "/")) false = Return (VStr s).
Proof.
  intros Hne Hlast. split; [by apply format_path_appends_slash |].
  unfold Settings._format_path.
  rewrite string_snoc_not_empty, last_is_snoc. cbn [negb andb].
  by rewrite str_init_snoc.
Qed.

Lemma format_path_slash_round_trip_witness :
  Settings._format_path (VStr "/var/log") true = Return (VStr ("/var/log" ++ "/"))
  ∧ Settings._format_path (VStr ("/var/log" ++ "/")) false
    = Return (VStr "/var/log").
Proof. apply (format_path_slash_round_trip "/var/log"); [discriminate | reflexivity]. Defined.



Lemma int_digits_of_uint_acc (d : Decimal.uint) (acc : positive) :
  int_digits (NilEmpty.string_of_uint d) (Z.pos acc) false
  = Some (Z.pos (Pos.of_uint_acc d acc)).
Proof.
  revert acc. induction d as [| d IH | d IH | d IH | d IH | d IH | d IH
                              | d IH | d IH | d IH | d IH]; intros acc;
    [done | ..];
    cbn [NilEmpty.string_of_uint int_digits Pos.of_uint_acc];
    match goal with
    | |- context [is_digit ?c] => change (is_digit c) with true; cbn iota
    end;
    match goal with
    | |- int_digits _ ?a false = Some (Z.pos (Pos.of_uint_acc _ ?b)) =>
        replace a with (Z.pos b) by (vm_compute digit_value; lia)
    end;
    apply IH.
Qed.

Lemma int_digits_of_uint (d : Decimal.uint) :
  int_digits (NilEmpty.string_of_uint d) 0 false
  = Some (Z.of_N (Pos.of_uint d)).
Proof.
  induction d as [| d IH | d IH | d IH | d IH | d IH | d IH
                  | d IH | d IH | d IH | d IH];
    [done | exact IH | ..];
    cbn [NilEmpty.string_of_uint int_digits Pos.of_uint];
    match goal with
    | |- context [is_digit ?c] => change (is_digit c) with true; cbn iota
    end;
    apply (int_digits_of_uint_acc d).
Qed.

Lemma int_body_of_uint (d : Decimal.uint) :
  d ≠ Decimal.Nil →
  int_body (NilEmpty.string_of_uint d) = Some (Z.of_N (Pos.of_uint d)).
Proof.
  intros Hd. destruct d; [done | ..];
    cbn [NilEmpty.string_of_uint int_body Pos.of_uint];
    match goal with
    | |- context [is_digit ?c] => change (is_digit c) with true; cbn iota
    end;
    first [apply int_digits_of_uint | apply (int_digits_of_uint_acc _)].
Qed.

Lemma rstrip_of_uint (d : Decimal.uint) :
  rstrip_with is_c_space (NilEmpty.string_of_uint d)
  = NilEmpty.string_of_uint d.
Proof.
  induction d; [done | ..];
    cbn [NilEmpty.string_of_uint rstrip_with]; rewrite IHd;
    by destruct (NilEmpty.string_of_uint d).
Qed.

(** [int] reads back what [str] writes for an integer. *)
Lemma int_of_str_of_Z (z : Z) : int_of_str (str_of_Z z) = Some z.
Proof.
  unfold str_of_Z, Z.to_int, NilZero.string_of_int, NilZero.string_of_uint.
  destruct z as [| p | p]; [done | |];
    pose proof (DecimalPos.Unsigned.to_uint_nonnil p) as Hnil;
    pose proof (DecimalPos.Unsigned.of_to p) as Hback;
    pose proof (int_body_of_uint (Pos.to_uint p) Hnil) as Hbody;
    pose proof (rstrip_of_uint (Pos.to_uint p)) as Hstrip;
    rewrite Hback in Hbody; unfold int_of_str.
  - destruct (Pos.to_uint p); [done | ..];
      cbn [NilEmpty.string_of_uint lstrip_with] in *;
      match goal with
      | |- context [is_c_space ?c] => change (is_c_space c) with false; cbn iota
      end;
      rewrite Hstrip; exact Hbody.
  - destruct (Pos.to_uint p) eqn:Hd; [done | ..];
      cbn [lstrip_with]; change (is_c_space "-") with false; cbn iota;
      cbn [rstrip_with]; rewrite Hstrip;
      cbn [NilEmpty.string_of_uint] in *;
      change (is_c_space "-") with false; cbn iota;
      rewrite Hbody; done.
Qed.

(** X4. For a key outside the two path sets, the decimal text of an
    integer is formatted to that integer: [_format_value] undoes [str]. *)
Theorem format_value_reads_decimal (param : string) (z : Z) :
  param ∉ Settings.__PATH_WITH_SLASH_PARAMETERS →
  param ∉ Settings.__PATH_WITHOUT_SLASH_PARAMETERS →
  Settings._format_value param (VStr (str_of_Z z)) = Return (VInt z).
Proof.
  intros Hwith Hwithout. rewrite format_value_plain by done. cbn [str int].
  destruct (str_of_Z_not_a_keyword z) as [-> ->].
  by rewrite int_of_str_of_Z.
Qed.

Lemma format_value_reads_decimal_witness :
  Settings._format_value "SSH_PORT" (VStr (str_of_Z (-2022)))
  = Return (VInt (-2022)).
Proof.
  apply (format_value_reads_decimal "SSH_PORT" (-2022));
    apply (bool_decide_eq_false_1 (_ ∈ _)); reflexivity.
Defined.

(* ===================================================================== *)
(** * More on the config file and the loader                             *)
(* ===================================================================== *)

(** X5. A settings path with and without its final slash names the same
    config file: the directory, one slash, and the file name. *)
Theorem get_config_file_adds_one_slash (p program_path : string) :
  p ≠ EmptyString →
  last_is "/" p = false →
  Settings._get_config_file (Some p) program_path
  = Return (p ++ "/" ++ Settings.__CONFIG_FILE)
  ∧ Settings._get_config_file (Some (p ++ "/")) program_path
    = Return (p ++ "/" ++ Settings.__CONFIG_FILE).
Proof.
  intros Hne Hlast. unfold Settings._get_config_file.
  rewrite (format_path_appends_slash p Hne Hlast).
  assert (Settings._format_path (VStr (p ++ "/")) true = Return (VStr (p ++ "/")))
    as ->.
  { unfold Settings._format_path.
    by rewrite string_snoc_not_empty, last_is_snoc. }
  cbn. by rewrite string_app_assoc.
Qed.

Lemma get_config_file_adds_one_slash_witness :
  Settings._get_config_file (Some "/etc") "/opt/"
  = Return ("/etc" ++ "/" ++ Settings.__CONFIG_FILE)
  ∧ Settings._get_config_file (Some ("/etc" ++ "/")) "/opt/"
    = Return ("/etc" ++ "/" ++ Settings.__CONFIG_FILE).
Proof.
  apply (get_config_file_adds_one_slash "/etc" "/opt/");
    [discriminate | reflexivity].
Defined.

Lemma format_settings_keys (constants formatted : list (string * value)) :
  Settings.format_settings constants = Return formatted →
  formatted.*1 = constants.*1.
Proof.
  revert formatted.
  induction constants as [| [k v] constants IH]; intros formatted Hrun;
    cbn in Hrun.
  - by injection Hrun as <-.
  - destruct (Settings._format_value k v) as [v' | e]; [| done]. cbn in Hrun.
    destruct (Settings.format_settings constants) as [rest |]; [| done].
    cbn in Hrun. injection Hrun as <-. cbn. f_equal. by apply IH.
Qed.

(** The loop of the loader, when every value can be formatted: the
    formatted settings are laid over the attributes, a later one over an
    earlier one of the same name. *)
Lemma set_constants_returns (constants formatted : list (string * value))
    (attrs : gmap string value) :
  Settings.format_settings constants = Return formatted →
  Settings.set_constants constants attrs
  = (list_to_map (reverse formatted) ∪ attrs, Return tt).
Proof.
  revert formatted attrs.
  induction constants as [| [k v] constants IH]; intros formatted attrs Hrun;
    cbn in Hrun.
  - injection Hrun as <-. cbn. by rewrite (left_id_L ∅ (∪)).
  - cbn [Settings.set_constants].
    destruct (Settings._format_value k v) as [v' | e]; [| done]. cbn in Hrun.
    destruct (Settings.format_settings constants) as [rest |] eqn:Hrest;
      [| done].
    cbn in Hrun. injection Hrun as <-.
    rewrite (IH rest) by done. f_equal.
    rewrite reverse_cons, list_to_map_app. cbn [list_to_map foldr].
    rewrite <- (assoc_L (∪)). f_equal.
    by rewrite insert_empty, <- insert_union_singleton_l.
Qed.

(** The loop of the loader up to a value that cannot be formatted. *)
Lemma set_constants_raises (pre post : list (string * value)) (k : string)
    (v : value) (e : exn) (attrs : gmap string value) (pre' : list (string * value)) :
  Settings.format_settings pre = Return pre' →
  Settings._format_value k v = Raise e →
  Settings.set_constants (pre ++ (k, v) :: post) attrs
  = (list_to_map (reverse pre') ∪ attrs, Raise e).
Proof.
  revert pre' attrs.
  induction pre as [| [k0 v0] pre IH]; intros pre' attrs Hpre Hbad;
    cbn in Hpre.
  - injection Hpre as <-. cbn. rewrite Hbad. by rewrite (left_id_L ∅ (∪)).
  - cbn [app Settings.set_constants].
    destruct (Settings._format_value k0 v0) as [v' | e0]; [| done]. cbn in Hpre.
    destruct (Settings.format_settings pre) as [rest |] eqn:Hrest; [| done].
    cbn in Hpre. injection Hpre as <-.
    rewrite (IH rest) by done. f_equal.
    rewrite reverse_cons, list_to_map_app. cbn [list_to_map foldr].
    rewrite <- (assoc_L (∪)). f_equal.
    by rewrite insert_empty, <- insert_union_singleton_l.
Qed.

Lemma set_constants_keeps (constants : list (string * value))
    (attrs : gmap string value) (name : string) :
  is_Some (attrs !! name) →
  is_Some ((Settings.set_constants constants attrs).1 !! name).
Proof.
  revert attrs. induction constants as [| [k v] constants IH];
    intros attrs Hname; cbn [Settings.set_constants]; [done |].
  destruct (Settings._format_value k v) as [v' | e]; [| done].
  apply IH. rewrite lookup_insert. case_decide; eauto.
Qed.

Lemma lookup_reverse_formatted (formatted : list (string * value))
    (k : string) (v : value) :
  NoDup formatted.*1 →
  (k, v) ∈ formatted →
  (list_to_map (reverse formatted) : gmap string value) !! k = Some v.
Proof.
  intros Hdup Hin. apply elem_of_list_to_map_1.
  - by rewrite fmap_reverse, (reverse_Permutation formatted.*1).
  - by apply elem_of_reverse.
Qed.

Lemma set_constants_returns_inv (constants : list (string * value))
    (attrs attrs' : gmap string value) :
  Settings.set_constants constants attrs = (attrs', Return tt) →
  ∃ formatted : list (string * value),
    Settings.format_settings constants = Return formatted.
Proof.
  revert attrs. induction constants as [| [k v] constants IH];
    intros attrs Hrun; cbn in *; [eauto |].
  destruct (Settings._format_value k v) as [v' | e]; [| done].
  destruct (IH _ Hrun) as [rest ->]. cbn. eauto.
Qed.

Section LoaderProperties.
Context `{Settings.Host}.

(** X6. [load_settings_from_yaml] never takes an attribute away: what
    [Settings] had before the call it has after it, whether the call
    returns or raises.  A new load does not clear the settings of the
    previous one. *)
Theorem load_keeps_attributes (settings_path : option string)
    (attrs : gmap string value) (files : gmap string string) (name : string) :
  is_Some (attrs !! name) →
  is_Some
    ((Settings.load_settings_from_yaml settings_path attrs files).1 !! name).
Proof.
  intros Hname. unfold Settings.load_settings_from_yaml.
  assert (is_Some
            (<["PROGRAM_PATH" := VStr (Settings.module_dir ++ "/")]> attrs
               !! name)) as Hbase.
  { rewrite lookup_insert. case_decide; eauto. }
  destruct (Settings._get_config_file _ _) as [config_file | e]; [| done].
  destruct (files !! config_file) as [text |]; [| done].
  destruct (Settings.yaml_load text) as [[constants |] |]; [| done | done].
  by apply set_constants_keeps.
Qed.

(** X7. Let the attributes of [Settings] be settings, and let the config
    file be there and be a YAML mapping with distinct keys that are names
    of settings, not of members of the class, and with values that can
    all be formatted.  Then [load_settings_from_yaml] returns; each key of
    the file is an attribute that holds the formatted value, and every
    other attribute is as before, but for [PROGRAM_PATH], which holds the
    directory of the program. *)
Theorem load_installs_settings (settings_path : option string)
    (attrs : gmap string value) (files : gmap string string)
    (config_file text : string) (constants formatted : list (string * value)) :
  map_Forall (fun name _ => setting_name name = true) attrs →
  Forall (fun name => setting_name name = true) constants.*1 →
  Settings._get_config_file settings_path (Settings.module_dir ++ "/")
  = Return config_file →
  files !! config_file = Some text →
  Settings.yaml_load text = Some (Settings.YamlMapping constants) →
  Settings.format_settings constants = Return formatted →
  NoDup constants.*1 →
  ∃ attrs' : gmap string value,
    Settings.load_settings_from_yaml settings_path attrs files
    = (attrs', Return tt)
    ∧ (∀ (k : string) (v : value), (k, v) ∈ formatted → attrs' !! k = Some v)
    ∧ (∀ name : string,
         name ∉ constants.*1 →
         attrs' !! name
         = <["PROGRAM_PATH" := VStr (Settings.module_dir ++ "/")]> attrs
             !! name).
Proof.
  intros _ _ Hcfg Hfile Hyaml Hfmt Hdup.
  unfold Settings.load_settings_from_yaml. rewrite Hcfg, Hfile, Hyaml.
  rewrite (set_constants_returns constants formatted) by done.
  pose proof (format_settings_keys _ _ Hfmt) as Hkeys.
  eexists. split; [done |]. split.
  - intros k v Hin. rewrite lookup_union.
    rewrite (lookup_reverse_formatted formatted k v) by (by rewrite ?Hkeys).
    by destruct (_ !! k).
  - intros name Hname. rewrite lookup_union.
    rewrite (not_elem_of_list_to_map_1 (reverse formatted) name); [by rewrite (left_id_L None _) |].
    by rewrite fmap_reverse, elem_of_reverse, Hkeys.
Qed.

(** X8. Let the attributes of [Settings] be settings and the keys of the
    file names of settings.  When a value of the file cannot be
    formatted, [load_settings_from_yaml] raises, and the settings that
    stand before that value in the file are installed all the same: the
    attributes are those of a load of the file cut before the failing
    setting. *)
Theorem load_stops_at_bad_value (settings_path : option string)
    (attrs : gmap string value) (files : gmap string string)
    (config_file text : string) (pre post pre' : list (string * value))
    (k : string) (v : value) (e : exn) :
  map_Forall (fun name _ => setting_name name = true) attrs →
  Forall (fun name => setting_name name = true) pre.*1 →
  Settings._get_config_file settings_path (Settings.module_dir ++ "/")
  = Return config_file →
  files !! config_file = Some text →
  Settings.yaml_load text = Some (Settings.YamlMapping (pre ++ (k, v) :: post)) →
  Settings.format_settings pre = Return pre' →
  Settings._format_value k v = Raise e →
  NoDup pre.*1 →
  ∃ attrs' : gmap string value,
    Settings.load_settings_from_yaml settings_path attrs files
    = (attrs', Raise e)
    ∧ Settings.set_constants pre
        (<["PROGRAM_PATH" := VStr (Settings.module_dir ++ "/")]> attrs)
      = (attrs', Return tt)
    ∧ (∀ (k' : string) (v' : value), (k', v') ∈ pre' → attrs' !! k' = Some v').
Proof.
  intros _ _ Hcfg Hfile Hyaml Hpre Hbad Hdup.
  unfold Settings.load_settings_from_yaml. rewrite Hcfg, Hfile, Hyaml.
  rewrite (set_constants_raises pre post k v e _ pre') by done.
  rewrite (set_constants_returns pre pre') by done.
  pose proof (format_settings_keys _ _ Hpre) as Hkeys.
  eexists. split; [done |]. split; [done |].
  intros k' v' Hin. rewrite lookup_union.
  rewrite (lookup_reverse_formatted pre' k' v') by (by rewrite ?Hkeys).
  by destruct (_ !! k').
Qed.

(** X9. Loading is idempotent on the attributes: after a load that
    returned and left [Settings] with attributes that are settings, none
    of them in the place of a member of the class, a second load of the
    same files returns and leaves the attributes as the first load left
    them. *)
Theorem load_again_same_attributes (settings_path : option string)
    (attrs attrs' : gmap string value) (files : gmap string string) :
  Settings.load_settings_from_yaml settings_path attrs files
  = (attrs', Return tt) →
  map_Forall (fun name _ => setting_name name = true) attrs' →
  Settings.load_settings_from_yaml settings_path attrs' files
  = (attrs', Return tt).
Proof.
  unfold Settings.load_settings_from_yaml. intros Hrun _.
  destruct (Settings._get_config_file _ _) as [config_file | e]; [| done].
  destruct (files !! config_file) as [text |]; [| done].
  destruct (Settings.yaml_load text) as [[constants |] |]; [| done | done].
  destruct (set_constants_returns_inv _ _ _ Hrun) as [formatted Hfmt].
  rewrite (set_constants_returns constants formatted) in Hrun |- * by done.
  injection Hrun as <-. f_equal.
  apply map_eq. intros name.
  rewrite !lookup_union, !lookup_insert, !lookup_union, !lookup_insert.
  destruct (list_to_map (reverse formatted) !! name);
    case_decide; try done; by destruct (attrs !! name).
Qed.

End LoaderProperties.

Lemma load_keeps_attributes_witness :
  is_Some
    ((@Settings.load_settings_from_yaml sample_host (Some "/etc")
        (<["OLD_SETTING" := VInt 7]> initial_attrs) scenario_files).1
       !! "OLD_SETTING").
Proof.
  apply (@load_keeps_attributes sample_host (Some "/etc")
           (<["OLD_SETTING" := VInt 7]> initial_attrs) scenario_files
           "OLD_SETTING").
  exists (VInt 7). reflexivity.
Defined.

Lemma load_installs_settings_witness :
  ∃ attrs' : gmap string value,
    @Settings.load_settings_from_yaml sample_host (Some "/etc") initial_attrs
      scenario_files
    = (attrs', Return tt)
    ∧ (∀ (k : string) (v : value),
         (k, v) ∈ scenario_settings → attrs' !! k = Some v)
    ∧ (∀ name : string,
         name ∉ scenario_settings.*1 →
         attrs' !! name
         = <["PROGRAM_PATH" := VStr ("/opt/zipatoserver" ++ "/")]> initial_attrs
             !! name).
Proof.
  apply (@load_installs_settings sample_host (Some "/etc") initial_attrs
           scenario_files "/etc/zipatoserver.conf" scenario_old
           scenario_settings scenario_settings); try reflexivity.
  - apply (bool_decide_eq_true_1 (map_Forall _ _)). reflexivity.
  - repeat constructor.
  - apply (bool_decide_eq_true_1 (NoDup _)). reflexivity.
Defined.

Lemma load_stops_at_bad_value_witness :
  ∃ attrs' : gmap string value,
    @Settings.load_settings_from_yaml typed_host (Some "/etc") initial_attrs
      typed_files
    = (attrs', Raise TypeError)
    ∧ Settings.set_constants [("a", VInt 1)]
        (<["PROGRAM_PATH" := VStr ("/opt/zipatoserver" ++ "/")]> initial_attrs)
      = (attrs', Return tt)
    ∧ (∀ (k' : string) (v' : value),
         (k', v') ∈ [("a", VInt 1)] → attrs' !! k' = Some v').
Proof.
  apply (@load_stops_at_bad_value typed_host (Some "/etc") initial_attrs
           typed_files "/etc/zipatoserver.conf"
           ("a: 1" ++ nl ++ "SSH_PATH: 22" ++ nl ++ "b: yes" ++ nl)
           [("a", VInt 1)] [("b", VBool true)] [("a", VInt 1)]
           "SSH_PATH" (VInt 22) TypeError); try reflexivity.
  - apply (bool_decide_eq_true_1 (map_Forall _ _)). reflexivity.
  - repeat constructor.
  - apply (bool_decide_eq_true_1 (NoDup _)). reflexivity.
Defined.

Lemma load_again_same_attributes_witness :
  @Settings.load_settings_from_yaml sample_host (Some "/etc")
    (@Settings.load_settings_from_yaml sample_host (Some "/etc") initial_attrs
       scenario_files).1 scenario_files
  = ((@Settings.load_settings_from_yaml sample_host (Some "/etc")
        initial_attrs scenario_files).1, Return tt).
Proof.
  apply (@load_again_same_attributes sample_host (Some "/etc") initial_attrs).
  - vm_compute. reflexivity.
  - apply (bool_decide_eq_true_1 (map_Forall _ _)). vm_compute. reflexivity.
Defined.

(* ===================================================================== *)
(** * More on the writer                                                 *)
(* ===================================================================== *)

(** The scan over a layout, with more lines after it. *)
Lemma read_comments_layout_app (entries : list entry) (tail : list string)
    (param_comments : gmap string (list string)) :
  Forall entry_ok entries →
  Settings.read_comments (file_lines entries ++ tail) [] param_comments
  = Settings.read_comments tail [] (block_map entries param_comments).
Proof.
  intros Hok. revert param_comments.
  induction Hok as [| e entries He Hok IH]; intros param_comments; [done |].
  unfold file_lines. rewrite fmap_cons, concat_cons. fold (file_lines entries).
  destruct e as [line | block key rest]; cbn [entry_lines entry_ok block_map] in *.
  - cbn [app Settings.read_comments]. rewrite He. apply IH.
  - destruct He as (Hne & Hblock & Hkey).
    rewrite <- !app_assoc. cbn [app].
    rewrite read_comments_block by done. apply IH.
Qed.

(** The scan does not return from lines that end with a comment. *)
Lemma read_comments_last_comment (pre comment : list string) (line : string)
    (param_comments : gmap string (list string)) :
  Settings.is_comment line = true →
  ∃ e : exn,
    Settings.read_comments (pre ++ [line]) comment param_comments = Raise e.
Proof.
  intros Hline. revert comment param_comments.
  induction pre as [| first pre IH]; intros comment param_comments.
  - cbn. rewrite Hline. eauto.
  - cbn [app Settings.read_comments].
    destruct (Settings.is_comment first); [| apply IH].
    destruct (pre ++ [line])%list as [| next rest] eqn:Hrest.
    { by destruct pre. }
    destruct (str_head next) as [c |]; [| eauto].
    destruct (negb (Ascii.eqb c "#")).
    + destruct (match_param next); [apply IH | eauto].
    + apply IH.
Qed.

(** X10. After a comment block the scan of the writer wants the line of a
    key.  On a file that starts as a well laid out file and goes on with
    a comment block and a line that has no colon, a blank line for one,
    the scan raises [AttributeError]. *)
Theorem read_comments_block_without_key (entries : list entry)
    (block tail : list string) (line : string) (c : ascii) :
  Forall entry_ok entries →
  block ≠ [] →
  Forall (fun l => Settings.is_comment l = true) block →
  str_head line = Some c →
  c ≠ "#"%char →
  match_param line = None →
  Settings.read_comments (file_lines entries ++ block ++ line :: tail) [] ∅
  = Raise AttributeError.
Proof.
  intros Hok Hne Hblock Hhead Hc Hmatch.
  rewrite read_comments_layout_app by done.
  generalize (block_map entries ∅) as param_comments.
  generalize (@nil string) as comment.
  induction Hblock as [| first block Hfirst Hblock IH]; [done |].
  intros comment param_comments. cbn [app Settings.read_comments].
  rewrite Hfirst. destruct block as [| next block].
  - cbn [app]. rewrite Hhead.
    apply Ascii.eqb_neq in Hc as ->. cbn [negb]. by rewrite Hmatch.
  - cbn [app]. inversion Hblock as [| ? ? Hnext _]; subst.
    rewrite (comment_head next Hnext), Ascii.eqb_refl. cbn [negb].
    by apply IH.
Qed.

Lemma read_comments_block_without_key_witness :
  Settings.read_comments
    (file_lines sample_layout ++ ["# end" ++ nl] ++ nl :: ["d: 4" ++ nl]) [] ∅
  = Raise AttributeError.
Proof.
  apply (read_comments_block_without_key sample_layout ["# end" ++ nl]
           ["d: 4" ++ nl] nl LF); try done.
  - repeat constructor; discriminate.
  - repeat constructor.
Defined.

Section WriterFailures.
Context `{Settings.Host}.

(** X11. On a config file whose last line is a comment
    [write_settings_to_file] raises, whatever the settings are, and
    leaves all files as they were: the scan for comments reads the line
    after each comment line. *)
Theorem write_raises_on_trailing_comment
    (settings_json : list (string * value)) (settings_path : option string)
    (fault : option nat) (files : gmap string string)
    (config_file content line : string) (pre : list string) :
  Settings._get_config_file settings_path (Settings.module_dir ++ "/")
  = Return config_file →
  files !! config_file = Some content →
  readlines content = (pre ++ [line])%list →
  Settings.is_comment line = true →
  ∃ e : exn,
    Settings.write_settings_to_file settings_json settings_path fault files
    = (files, Raise e).
Proof.
  intros Hcfg Hfile Hlines Hline.
  unfold Settings.write_settings_to_file, Settings.settings_text.
  rewrite Hcfg, Hfile, Hlines.
  destruct (read_comments_last_comment pre [] line ∅ Hline) as [e ->].
  cbn. eauto.
Qed.

End WriterFailures.

Lemma write_raises_on_trailing_comment_witness :
  ∃ e : exn,
    @Settings.write_settings_to_file sample_host scenario_settings (Some "/etc")
      None {[ "/etc/zipatoserver.conf" := "a: 1" ++ nl ++ "# end" ++ nl ]}
    = ({[ "/etc/zipatoserver.conf" := "a: 1" ++ nl ++ "# end" ++ nl ]}, Raise e).
Proof.
  apply (@write_raises_on_trailing_comment sample_host scenario_settings
           (Some "/etc") None _ "/etc/zipatoserver.conf"
           ("a: 1" ++ nl ++ "# end" ++ nl) ("# end" ++ nl) ["a: 1" ++ nl]);
    reflexivity.
Defined.

(** X12. The writer drops and reorders no line of the YAML text: the
    lines it was given are, in their order, among the lines it returns. *)
Theorem add_comments_keeps_lines (settings_list : list string)
    (param_comments : gmap string (list string)) :
  sublist settings_list (Settings.add_comments settings_list param_comments).
Proof.
  revert param_comments.
  induction settings_list as [| line rest IH]; intros param_comments;
    cbn [Settings.add_comments]; [constructor |].
  destruct (match_top_level line) as [param |].
  - destruct (param_comments !! param) as [comments |].
    + apply sublist_cons. apply sublist_inserts_l. by apply sublist_skip.
    + apply sublist_cons. by apply sublist_skip.
  - by apply sublist_skip.
Qed.

(** X13. Every line the writer adds is an empty line or a comment line
    of the old file whose key is the top-level key of a line of the YAML
    text: the comments of keys that are no longer there are not
    written. *)
Theorem add_comments_adds_known_comments (settings_list : list string)
    (param_comments : gmap string (list string)) (x : string) :
  x ∈ Settings.add_comments settings_list param_comments →
  x ∈ settings_list
  ∨ x = EmptyString
  ∨ ∃ (line param : string) (comments : list string),
      line ∈ settings_list
      ∧ match_top_level line = Some param
      ∧ param_comments !! param = Some comments
      ∧ x ∈ comments.
Proof.
  revert param_comments.
  induction settings_list as [| line rest IH]; intros param_comments;
    cbn [Settings.add_comments]; [intros Hx; by apply elem_of_nil in Hx |].
  assert (∀ pc : gmap string (list string),
            (∀ param comments,
               pc !! param = Some comments →
               param_comments !! param = Some comments) →
            x ∈ Settings.add_comments rest pc →
            x ∈ line :: rest
            ∨ x = EmptyString
            ∨ ∃ (line' param : string) (comments : list string),
                line' ∈ line :: rest
                ∧ match_top_level line' = Some param
                ∧ param_comments !! param = Some comments
                ∧ x ∈ comments) as Hrest.
  { intros pc Hpc Hx. destruct (IH pc Hx) as [Hin | [-> | Hin]].
    - left. apply elem_of_cons. by right.
    - by right; left.
    - destruct Hin as (line' & param & comments & Hl & Hm & Hp & Hc).
      right. right. exists line', param, comments.
      repeat split; [apply elem_of_cons; by right | done | by apply Hpc | done]. }
  intros Hx.
  destruct (match_top_level line) as [param |] eqn:Hmatch.
  - destruct (param_comments !! param) as [comments |] eqn:Hparam.
    + apply elem_of_cons in Hx as [-> | Hx]; [by right; left |].
      apply elem_of_app in Hx as [Hc | Hx].
      { right. right. exists line, param, comments.
        repeat split; [apply elem_of_cons; by left | done..]. }
      apply elem_of_cons in Hx as [-> | Hx].
      { left. apply elem_of_cons. by left. }
      apply (Hrest (delete param param_comments)); [| done].
      intros p cs Hp. apply lookup_delete_Some in Hp. tauto.
    + apply elem_of_cons in Hx as [-> | Hx]; [by right; left |].
      apply elem_of_cons in Hx as [-> | Hx].
      { left. apply elem_of_cons. by left. }
      by apply (Hrest param_comments).
  - apply elem_of_cons in Hx as [-> | Hx].
    + left. apply elem_of_cons. by left.
    + by apply (Hrest param_comments).
Qed.

Lemma add_comments_adds_known_comments_witness :
  "# note" ∈ ["a: 1"; "b: true"; ""]
  ∨ "# note" = EmptyString
  ∨ ∃ (line param : string) (comments : list string),
      line ∈ ["a: 1"; "b: true"; ""]
      ∧ match_top_level line = Some param
      ∧ ({[ "b" := ["# note"]; "c" := ["# gone"] ]} : gmap string (list string))
          !! param = Some comments
      ∧ "# note" ∈ comments.
Proof.
  apply (add_comments_adds_known_comments ["a: 1"; "b: true"; ""]
           {[ "b" := ["# note"]; "c" := ["# gone"] ]} "# note").
  vm_compute. do 3 right. left.
Defined.

Lemma join_lines_cons (x : string) (rest : list string) :
  rest ≠ [] → join_lines (x :: rest) = x ++ String LF (join_lines rest).
Proof. by destruct rest. Qed.

Lemma join_lines_head (c : ascii) (x : string) (rest : list string) :
  join_lines (String c x :: rest) = String c (join_lines (x :: rest)).
Proof. by destruct rest. Qed.

Lemma add_comments_cons_not_nil (line : string) (rest : list string)
    (param_comments : gmap string (list string)) :
  Settings.add_comments (line :: rest) param_comments ≠ [].
Proof.
  cbn [Settings.add_comments].
  destruct (match_top_level line) as [param |]; [| done].
  by destruct (param_comments !! param).
Qed.

(** X14. The writer cuts the first character off the text it has put
    together.  When the first line of the YAML text is the line of a
    top-level key, that character is the line end after the empty line
    put before the key, and the text starts with the comment of the key
    or with its line.  When it is not, a key with a blank in it for one,
    the character cut off is the first character of the YAML text. *)
Theorem written_text_start (line : string) (rest : list string)
    (param_comments : gmap string (list string)) :
  (∀ param : string,
     match_top_level line = Some param →
     str_tail
       (join_lines (Settings.add_comments (line :: rest) param_comments))
     = join_lines
         (default [] (param_comments !! param)
          ++ line :: Settings.add_comments rest (delete param param_comments)))
  ∧ (∀ (c : ascii) (line' : string),
       match_top_level line = None →
       line = String c line' →
       str_tail
         (join_lines (Settings.add_comments (line :: rest) param_comments))
       = join_lines (line' :: Settings.add_comments rest param_comments)).
Proof.
  split.
  - intros param Hmatch. cbn [Settings.add_comments]. rewrite Hmatch.
    destruct (param_comments !! param) as [comments |] eqn:Hparam; cbn [default].
    + rewrite join_lines_cons by by destruct comments. done.
    + rewrite join_lines_cons by done. cbn [app str_tail String.append].
      by rewrite delete_id.
  - intros c line' Hmatch ->. cbn [Settings.add_comments]. rewrite Hmatch.
    by rewrite join_lines_head.
Qed.

Lemma written_text_start_witness :
  str_tail (join_lines (Settings.add_comments ["a: 1"; "b: true"; ""]
                          {[ "a" := ["# first"] ]}))
  = join_lines
      (default [] (({[ "a" := ["# first"] ]} : gmap string (list string)) !! "a")
       ++ "a: 1" :: Settings.add_comments ["b: true"; ""]
                      (delete "a" {[ "a" := ["# first"] ]}))
  ∧ str_tail (join_lines (Settings.add_comments ["my key: 1"; ""] ∅))
    = join_lines ("y key: 1" :: Settings.add_comments [""] ∅).
Proof.
  split.
  - apply (proj1 (written_text_start "a: 1" ["b: true"; ""]
                    {[ "a" := ["# first"] ]}) "a").
    reflexivity.
  - apply (proj2 (written_text_start "my key: 1" [""] ∅) "m"%char "y key: 1");
      reflexivity.
Defined.

(** The lines the writer puts for one line of the YAML text: before the
    line of a top-level key an empty line and the comment block stored
    for the key, if there is one. *)
Lemma add_comments_same_keys (settings_list : list string)
    (pc pc' : gmap string (list string)) :
  (∀ line key : string,
     line ∈ settings_list → match_top_level line = Some key →
     pc !! key = pc' !! key) →
  concat
    ((fun line =>
        match match_top_level line with
        | Some key => EmptyString :: default [] (pc !! key) ++ [line]
        | None => [line]
        end) <$> settings_list)
  = concat
      ((fun line =>
          match match_top_level line with
          | Some key => EmptyString :: default [] (pc' !! key) ++ [line]
          | None => [line]
          end) <$> settings_list).
Proof.
  intros Hsame. f_equal. apply list_fmap_ext. intros i line Hi.
  apply list_elem_of_lookup_2 in Hi.
  destruct (match_top_level line) as [key |] eqn:Hkey; [| done].
  by rewrite (Hsame line key).
Qed.

(** X15. When no two lines of the YAML text are lines of the same
    top-level key, the writer puts before the line of each top-level key
    an empty line and then the comment block the old file had for that
    key, if it had one, and leaves every other line, a nested line or the
    empty last one, as it is: a comment goes with its key, wherever the
    key now stands. *)
Theorem add_comments_by_key (settings_list : list string)
    (param_comments : gmap string (list string)) :
  NoDup (omap match_top_level settings_list) →
  Settings.add_comments settings_list param_comments
  = concat
      ((fun line =>
          match match_top_level line with
          | Some key =>
              EmptyString :: default [] (param_comments !! key) ++ [line]
          | None => [line]
          end) <$> settings_list).
Proof.
  revert param_comments.
  induction settings_list as [| line rest IH]; intros param_comments Hdup;
    [done |].
  cbn [Settings.add_comments fmap list_fmap concat omap list_omap] in *.
  change (list_fmap _ _ ?f rest) with (f <$> rest).
  destruct (match_top_level line) as [key |] eqn:Hline.
  - apply NoDup_cons in Hdup as [Hfresh Hdup].
    assert (∀ l k : string,
              l ∈ rest → match_top_level l = Some k →
              delete key param_comments !! k = param_comments !! k) as Hsame.
    { intros l k Hl Hk. apply lookup_delete_ne. intros <-. apply Hfresh.
      apply list_elem_of_omap. eauto. }
    destruct (param_comments !! key) as [comments |] eqn:Hkey; cbn [default].
    + rewrite (IH (delete key param_comments)) by done.
      rewrite (add_comments_same_keys rest _ param_comments Hsame).
      cbn. by rewrite <- app_assoc.
    + by rewrite (IH param_comments) by done.
  - by rewrite (IH param_comments) by done.
Qed.

Lemma add_comments_by_key_witness :
  Settings.add_comments ["a: 1"; "b:"; "    c: 1"; ""]
    {[ "a" := ["# first"]; "b" := ["# note"; "# more"] ]}
  = concat
      ((fun line =>
          match match_top_level line with
          | Some key =>
              EmptyString
                :: default []
                     (({[ "a" := ["# first"]; "b" := ["# note"; "# more"] ]}
                       : gmap string (list string)) !! key)
                ++ [line]
          | None => [line]
          end) <$> ["a: 1"; "b:"; "    c: 1"; ""]).
Proof.
  apply (add_comments_by_key ["a: 1"; "b:"; "    c: 1"; ""]).
  apply (bool_decide_eq_true_1 (NoDup _)). reflexivity.
Defined.

(* ===================================================================== *)
(** * The settings page                                                  *)
(* ===================================================================== *)

Lemma prefix_key_line (k key rest : string) :
  no_colon_no_line_end k = true →
  no_colon_no_line_end key = true →
  String.prefix (k ++ ":") (key_line key rest) = true → k = key.
Proof.
  unfold key_line. revert key.
  induction k as [| a k IH]; intros [| c key] Hk Hkey Hpre;
    cbn [no_colon_no_line_end] in *.
  - done.
  - change (String.prefix ":" (String c (key ++ ":" ++ rest)) = true) in Hpre.
    cbn [String.prefix] in Hpre.
    destruct (ascii_dec ":" c) as [<- | _]; [done | done].
  - change (String.prefix (String a (k ++ ":")) (String ":" rest) = true) in Hpre.
    cbn [String.prefix] in Hpre.
    destruct (ascii_dec a ":") as [-> | _]; [done | done].
  - change (String.prefix (String a (k ++ ":"))
              (String c (key ++ ":" ++ rest)) = true) in Hpre.
    cbn [String.prefix] in Hpre.
    destruct (ascii_dec a c) as [-> | _]; [| done].
    apply andb_prop in Hk as [_ Hk]. apply andb_prop in Hkey as [_ Hkey].
    f_equal. by apply IH.
Qed.

Lemma prefix_own_key_line (key rest : string) :
  String.prefix (key ++ ":") (key_line key rest) = true.
Proof.
  unfold key_line. induction key as [| c key IH].
  - change (String.prefix ":" (String ":" rest) = true). cbn [String.prefix].
    destruct (ascii_dec ":" ":"); [by destruct rest | done].
  - change (String.prefix (String c (key ++ ":"))
              (String c (key ++ ":" ++ rest)) = true).
    cbn [String.prefix]. by destruct (ascii_dec c c).
Qed.

Lemma match_key_key_line (k key rest : string) :
  key_text k → key_text key →
  Settings.match_key k (key_line key rest) = bool_decide (k = key).
Proof.
  intros (_ & Hk & _) (_ & Hkey & _). unfold Settings.match_key.
  case_bool_decide as Heq.
  - subst k. apply prefix_own_key_line.
  - destruct (String.prefix (k ++ ":") (key_line key rest)) eqn:Hpre; [| done].
    destruct Heq. by apply (prefix_key_line k key rest).
Qed.

Lemma match_key_comment (key line : string) :
  key_text key → Settings.match_comment line = true →
  Settings.match_key key line = false.
Proof.
  intros (Hne & _ & Hhead) Hline. unfold Settings.match_key, Settings.match_comment in *.
  destruct key as [| a key]; [done |]. destruct line as [| c line]; [done |].
  cbn in Hline. apply Ascii.eqb_eq in Hline as ->.
  change (String.prefix (String a (key ++ ":")) (String "#" line) = false).
  cbn [String.prefix]. destruct (ascii_dec a "#") as [-> | _]; [| done].
  by destruct Hhead.
Qed.

Lemma set_constant_no_match (keys : list string) (line : string)
    (constant : option string) (comments : gmap string string) :
  (∀ key : string, key ∈ keys → Settings.match_key key line = false) →
  Settings.set_constant keys line constant comments = (constant, comments).
Proof.
  revert constant comments. induction keys as [| k keys IH];
    intros constant comments Hkeys; cbn [Settings.set_constant]; [done |].
  rewrite Hkeys by (apply elem_of_cons; by left).
  apply IH. intros key Hkey. apply Hkeys. apply elem_of_cons. by right.
Qed.

Lemma set_constant_key_line (keys : list string) (key rest : string)
    (constant : option string) (comments : gmap string string) :
  Forall key_text keys → key_text key → key ∈ keys →
  Settings.set_constant keys (key_line key rest) constant comments
  = (Some key, <[key := EmptyString]> comments).
Proof.
  intros Hkeys Hkey Hin.
  assert (∀ constant comments,
            Settings.set_constant keys (key_line key rest) constant comments
            = if bool_decide (key ∈ keys)
              then (Some key, <[key := EmptyString]> comments)
              else (constant, comments)) as Hgen.
  { clear Hin constant comments.
    induction Hkeys as [| k keys Hk Hkeys IH]; intros constant comments;
      cbn [Settings.set_constant].
    - by rewrite bool_decide_eq_false_2 by apply not_elem_of_nil.
    - rewrite match_key_key_line by done.
      destruct (decide (k = key)) as [-> | Hne].
      + rewrite (bool_decide_eq_true_2 (key = key)) by done. rewrite IH.
        rewrite (bool_decide_eq_true_2 (key ∈ key :: keys))
          by (apply elem_of_cons; by left).
        case_bool_decide; [by rewrite insert_insert_eq | done].
      + rewrite (bool_decide_eq_false_2 (k = key)) by done. rewrite IH.
        assert (bool_decide (key ∈ k :: keys) = bool_decide (key ∈ keys)) as ->;
          [| done].
        apply bool_decide_ext. rewrite elem_of_cons.
        split; [intros [Heq | Hin']; [by destruct Hne | done] | by right]. }
  rewrite Hgen. by rewrite bool_decide_eq_true_2.
Qed.

(** The scan of the settings page over a block, from its last line up. *)
Lemma scan_comments_block (block tail keys : list string) (key text : string)
    (comments : gmap string string) :
  Forall key_text keys →
  Forall (fun line => Settings.match_comment line = true) block →
  comments !! key = Some text →
  Settings.scan_comments (reverse block ++ tail) keys (Some key) comments
  = Settings.scan_comments tail keys (Some key)
      (<[key := foldr (fun line text => strip (str_tail line) ++ " " ++ text)
                  text block]> comments).
Proof.
  intros Hkeys Hblock. revert tail.
  induction Hblock as [| line block Hline Hblock IH]; intros tail Htext.
  - cbn. by rewrite insert_id.
  - rewrite reverse_cons, <- app_assoc. cbn [app]. rewrite IH by done.
    cbn [Settings.scan_comments foldr]. rewrite Hline, lookup_insert_eq.
    rewrite set_constant_no_match.
    + by rewrite insert_insert_eq.
    + intros k Hk. apply match_key_comment; [| done].
      by apply (proj1 (Forall_forall _ _) Hkeys).
Qed.

(** The scan of the settings page over a layout, from its last line up. *)
Lemma scan_comments_layout (entries : list entry) (tail keys : list string)
    (constant : option string) (comments : gmap string string) :
  Forall key_text keys →
  Forall (page_entry_ok keys) entries →
  Settings.scan_comments (reverse (file_lines entries) ++ tail) keys constant
    comments
  = Settings.scan_comments tail keys (top_key entries constant)
      (page_map entries comments).
Proof.
  intros Hkeys Hok. revert tail.
  induction Hok as [| e entries He Hok IH]; intros tail; [done |].
  unfold file_lines. rewrite fmap_cons, concat_cons. fold (file_lines entries).
  rewrite reverse_app, <- app_assoc, IH.
  destruct e as [line | block key rest];
    cbn [entry_lines page_entry_ok page_map top_key] in *.
  - destruct He as [Hline Hnone]. cbn [reverse app].
    change (reverse [line]) with [line]. cbn [app Settings.scan_comments].
    rewrite Hline. by rewrite set_constant_no_match.
  - destruct He as (Hblock & Hkey & Hin).
    rewrite reverse_app. change (reverse [key_line key rest])
      with [key_line key rest].
    cbn [app Settings.scan_comments].
    assert (Settings.match_comment (key_line key rest) = false) as ->.
    { destruct (key_line_head key rest Hkey) as (c & Hc & Hneq).
      unfold Settings.match_comment. by rewrite Hc. }
    rewrite set_constant_key_line by done.
    rewrite (scan_comments_block block tail keys key EmptyString)
      by (done || apply lookup_insert_eq).
    by rewrite insert_insert_eq.
Qed.

Lemma page_map_lookup_other (entries : list entry) (acc : gmap string string)
    (key : string) :
  key ∉ commented_keys entries → page_map entries acc !! key = acc !! key.
Proof.
  induction entries as [| [line | block k rest] entries IH];
    intros Hkey; cbn [page_map commented_keys] in *; [done | auto |].
  apply not_elem_of_cons in Hkey as [Hne Hkey].
  rewrite lookup_insert_ne by done. auto.
Qed.

Lemma page_map_lookup (entries : list entry) (acc : gmap string string)
    (block : list string) (key rest : string) :
  NoDup (commented_keys entries) →
  Commented block key rest ∈ entries →
  page_map entries acc !! key = Some (comment_text block).
Proof.
  induction entries as [| [line | b k r] entries IH];
    intros Hdup Hin; cbn [page_map commented_keys] in *.
  - by apply elem_of_nil in Hin.
  - apply elem_of_cons in Hin as [[=] | Hin]. by apply IH.
  - apply NoDup_cons in Hdup as [Hfresh Hdup].
    apply elem_of_cons in Hin as [[= <- <- <-] | Hin].
    + apply lookup_insert_eq.
    + rewrite lookup_insert_ne; [by apply IH |].
      intros <-. apply Hfresh. clear -Hin.
      induction entries as [| [line | b' k' r'] entries IH];
        cbn [commented_keys].
      * by apply elem_of_nil in Hin.
      * apply elem_of_cons in Hin as [[=] | Hin]. by apply IH.
      * apply elem_of_cons in Hin as [[= <- <- <-] | Hin];
          apply elem_of_cons; [by left | right; by apply IH].
Qed.

Lemma word_key_text (key : string) : word_key key → key_text key.
Proof.
  intros [Hne Hword]. split; [done |]. split.
  - clear Hne. induction key as [| c key IH]; [done |].
    cbn [all_word_chars no_colon_no_line_end] in *.
    apply andb_prop in Hword as [Hc Hword]. rewrite IH by done.
    destruct (Ascii.eqb c ":") eqn:Hcolon.
    { apply Ascii.eqb_eq in Hcolon as ->. discriminate Hc. }
    destruct (Ascii.eqb c LF) eqn:Hend; [| done].
    apply Ascii.eqb_eq in Hend as ->. discriminate Hc.
  - destruct key as [| c key]; [done |]. cbn in *.
    apply andb_prop in Hword as [Hc _]. intros [= ->]. discriminate Hc.
Qed.

(** X16. Let the keys of the document be made of letters, digits and
    underscores.  For a config file laid out as lines of such keys, each
    under a block of comment lines, which may be empty, with lines
    between them that are no comments and no lines of keys, the scan of
    [render_settings_html] returns; each key of the file has as its
    comment the texts of the lines of its block, without the marker and
    stripped, each followed by a blank, and so the empty text for a key
    with no comment; a key that is not in the file has no comment. *)
Theorem render_comments_of_layout (constants : list (string * value))
    (entries : list entry) :
  Forall word_key constants.*1 →
  Forall (page_entry_ok constants.*1) entries →
  NoDup (commented_keys entries) →
  ∃ comments : gmap string string,
    Settings.render_comments constants (file_lines entries) = Return comments
    ∧ (∀ (block : list string) (key rest : string),
         Commented block key rest ∈ entries →
         comments !! key = Some (comment_text block))
    ∧ (∀ key : string, key ∉ commented_keys entries → comments !! key = None).
Proof.
  intros Hwords Hok Hdup. exists (page_map entries ∅).
  assert (Forall key_text constants.*1) as Hkeys.
  { eapply Forall_impl; [exact Hwords |]. apply word_key_text. }
  unfold Settings.render_comments.
  rewrite <- (app_nil_r (reverse (file_lines entries))).
  rewrite scan_comments_layout by done. split; [done |]. split.
  - intros block key rest Hin. by apply (page_map_lookup _ _ _ _ rest).
  - intros key Hkey. by rewrite page_map_lookup_other.
Qed.

(** The comments of the settings page for [page_layout]. *)
Example page_layout_scan :
  Settings.render_comments scenario_settings (file_lines page_layout)
  = Return {[ "a" := "server port "; "b" := EmptyString ]}.
Proof. vm_compute. reflexivity. Qed.

Lemma render_comments_of_layout_witness :
  ∃ comments : gmap string string,
    Settings.render_comments scenario_settings (file_lines page_layout)
    = Return comments
    ∧ (∀ (block : list string) (key rest : string),
         Commented block key rest ∈ page_layout →
         comments !! key = Some (comment_text block))
    ∧ (∀ key : string,
         key ∉ commented_keys page_layout → comments !! key = None).
Proof.
  apply (render_comments_of_layout scenario_settings page_layout).
  - repeat constructor; discriminate.
  - repeat constructor; try discriminate;
      try (apply (bool_decide_eq_true_1 (_ ∈ _)); reflexivity).
    intros key Hkey.
    apply elem_of_cons in Hkey as [-> | Hkey]; [reflexivity |].
    apply elem_of_cons in Hkey as [-> | Hkey]; [reflexivity |].
    by apply elem_of_nil in Hkey.
  - apply (bool_decide_eq_true_1 (NoDup _)). reflexivity.
Defined.

(** X17. On a config file whose last line is a comment the scan of
    [render_settings_html] raises: the comment has no key below it, and
    the scan looks for the comment of the last key of the document, which
    it has not met yet ([KeyError]), or, in a document with no key, for a
    name that is not bound ([UnboundLocalError]). *)
Theorem render_comments_last_comment_raises (constants : list (string * value))
    (pre : list string) (line : string) :
  Settings.match_comment line = true →
  Settings.render_comments constants (pre ++ [line])
  = Raise match constants with
          | [] => UnboundLocalError
          | _ :: _ => KeyError
          end.
Proof.
  intros Hline. unfold Settings.render_comments.
  rewrite reverse_app. change (reverse [line]) with [line].
  cbn [app Settings.scan_comments]. rewrite Hline.
  destruct constants as [| kv constants]; [done |].
  destruct (last ((kv :: constants).*1)) as [c |] eqn:Hlast.
  - by rewrite lookup_empty.
  - apply last_None in Hlast. done.
Qed.

Lemma render_comments_last_comment_raises_witness :
  Settings.render_comments scenario_settings
    ([ "a: 1" ++ nl; "b: yes" ++ nl ] ++ ["# end" ++ nl])
  = Raise KeyError.
Proof.
  apply (render_comments_last_comment_raises scenario_settings
           [ "a: 1" ++ nl; "b: yes" ++ nl ] ("# end" ++ nl)).
  reflexivity.
Defined.

(* ===================================================================== *)
(** * Instances of the properties above                                  *)
(* ===================================================================== *)

Lemma format_value_idempotent_outside_never_slash_witness :
  Settings._format_value "WEB_API_PATH" (VStr "api/") = Return (VStr "api/").
Proof.
  apply (format_value_idempotent_outside_never_slash "WEB_API_PATH"
           (VStr "api") (VStr "api/")).
  - apply (bool_decide_eq_false_1 (_ ∈ _)). reflexivity.
  - reflexivity.
Defined.


Lemma debug_print_unmapped_level_raises_witness :
  Debug.debug_print 12 11 "started" None None None []
  = ([], Raise KeyError).
Proof.
  apply (debug_print_unmapped_level_raises 12 11 "started" None None None []);
    lia.
Defined.

Lemma format_value_always_slash_witness :
  ∃ s' : string,
    Settings._format_value "PING_PATH" (VStr "/bin") = Return (VStr s')
    ∧ (s' = EmptyString ∨ last_is "/" s' = true).
Proof.
  apply (format_value_always_slash "PING_PATH" "/bin").
  apply (bool_decide_eq_true_1 (_ ∈ _)). reflexivity.
Defined.
